(** * libugremote: profile stores and connection lifecycle

    A shallow embedding of [UGConnProfile.py], [UGUserProfile.py] and
    [UGConnection.py].  Python values are an inductive type, exceptions are
    an explicit outcome, and every method is a function of the instance and
    of the outside world (files, open descriptors, standard output). *)

From stdpp Require Import gmap strings list.
From Stdlib Require Import ZArith QArith.

Set Warnings "-register-all".

Local Open Scope Z_scope.
Local Open Scope string_scope.
Local Open Scope list_scope.

(** ** Python values *)

Module Py.

(** A [float]: every finite double is a rational; [json.load] also yields
    the infinities (from [1e999] or [Infinity]) and [NaN]. *)
Inductive pyfloat : Type :=
  | FNaN
  | FNegInf
  | FPosInf
  | FFin (q : Q).

(** The values a profile can hold.  A string is its sequence of characters.
    Dictionary keys are strings, as in every dictionary of the three files
    and in every dictionary [json.load] returns; a dictionary keeps its
    insertion order. *)
Inductive pyval : Type :=
  | PNone
  | PBool (b : bool)
  | PInt (z : Z)
  | PFloat (f : pyfloat)
  | PStr (s : string)
  | PList (l : list pyval)
  | PTuple (l : list pyval)
  | PDict (d : list (string * pyval)).

(** Exceptions, all of them subclasses of [Exception]. *)
Inductive exn : Type :=
  | KeyError (k : pyval)
  | TypeError
  | ValueError
  | IndexError
  | AttributeError
  | NotImplementedError
  | OverflowError
  | OSError
  | JSONDecodeError
  | AuthenticationException
  | GaiError
  | Exception_.

Inductive outcome (A : Type) : Type :=
  | Ok (a : A)
  | Raise (e : exn).
Arguments Ok {A} a.
Arguments Raise {A} e.

Definition obind {A B} (m : outcome A) (k : A -> outcome B) : outcome B :=
  match m with
  | Ok a => k a
  | Raise e => Raise e
  end.

Notation "'let?' x ':=' m 'in' k" := (obind m (fun x => k))
  (at level 10, x name, m at level 100, k at level 200).

(** *** Dictionaries *)

Fixpoint dict_get (k : string) (d : list (string * pyval)) : option pyval :=
  match d with
  | [] => None
  | (k', v) :: d' => if String.eqb k k' then Some v else dict_get k d'
  end.

(** [d[k] = v]: an existing key keeps its position, a new one goes last. *)
Fixpoint dict_set (k : string) (v : pyval) (d : list (string * pyval))
  : list (string * pyval) :=
  match d with
  | [] => [(k, v)]
  | (k', v') :: d' =>
      if String.eqb k k' then (k', v) :: d' else (k', v') :: dict_set k v d'
  end.

Definition dict_keys (d : list (string * pyval)) : list string := map fst d.

(** *** Numbers and comparison *)

Definition Z_of_bool (b : bool) : Z := if b then 1 else 0.

(** The numeric value of a value: [bool] is a subclass of [int], and an
    [int] compares with a [float] by exact value. *)
Definition number_of (v : pyval) : option pyfloat :=
  match v with
  | PBool b => Some (FFin (inject_Z (Z_of_bool b)))
  | PInt z => Some (FFin (inject_Z z))
  | PFloat f => Some f
  | _ => None
  end.

Definition float_eq (x y : pyfloat) : bool :=
  match x, y with
  | FNegInf, FNegInf => true
  | FPosInf, FPosInf => true
  | FFin p, FFin q => Qeq_bool p q
  | _, _ => false
  end.

Definition float_lt (x y : pyfloat) : bool :=
  match x, y with
  | FNaN, _ | _, FNaN => false
  | FNegInf, FNegInf => false
  | FNegInf, _ => true
  | _, FNegInf => false
  | FPosInf, _ => false
  | FFin _, FPosInf => true
  | FFin p, FFin q => negb (Qle_bool q p)
  end.

Definition float_ge (x y : pyfloat) : bool :=
  match x, y with
  | FNaN, _ | _, FNaN => false
  | _, FNegInf => true
  | FNegInf, _ => false
  | FPosInf, _ => true
  | FFin _, FPosInf => false
  | FFin p, FFin q => Qle_bool q p
  end.

(** [a == b]. *)
Fixpoint py_eq (a b : pyval) : bool :=
  match a with
  | PNone => match b with PNone => true | _ => false end
  | PBool _ | PInt _ | PFloat _ =>
      match number_of a, number_of b with
      | Some x, Some y => float_eq x y
      | _, _ => false
      end
  | PStr s => match b with PStr t => String.eqb s t | _ => false end
  | PList la =>
      match b with
      | PList lb =>
          (fix go (la lb : list pyval) : bool :=
             match la, lb with
             | [], [] => true
             | x :: la', y :: lb' => py_eq x y && go la' lb'
             | _, _ => false
             end) la lb
      | _ => false
      end
  | PTuple la =>
      match b with
      | PTuple lb =>
          (fix go (la lb : list pyval) : bool :=
             match la, lb with
             | [], [] => true
             | x :: la', y :: lb' => py_eq x y && go la' lb'
             | _, _ => false
             end) la lb
      | _ => false
      end
  | PDict da =>
      match b with
      | PDict db =>
          Nat.eqb (length da) (length db) &&
          (fix go (da : list (string * pyval)) : bool :=
             match da with
             | [] => true
             | (k, x) :: da' =>
                 match dict_get k db with
                 | Some y => py_eq x y && go da'
                 | None => false
                 end
             end) da
      | _ => false
      end
  end.

(** [v < n] and [v >= n] against an [int]: a [TypeError] unless [v] is a
    number. *)
Definition py_lt_int (v : pyval) (n : Z) : outcome bool :=
  match number_of v with
  | Some x => Ok (float_lt x (FFin (inject_Z n)))
  | None => Raise TypeError
  end.

Definition py_ge_int (v : pyval) (n : Z) : outcome bool :=
  match number_of v with
  | Some x => Ok (float_ge x (FFin (inject_Z n)))
  | None => Raise TypeError
  end.

(** *** Containers *)

Fixpoint hashable (v : pyval) : bool :=
  match v with
  | PList _ | PDict _ => false
  | PTuple l => forallb hashable l
  | _ => true
  end.

Fixpoint is_substring (needle hay : string) : bool :=
  String.prefix needle hay ||
  match hay with
  | EmptyString => false
  | String _ hay' => is_substring needle hay'
  end.

(** [x in c]. *)
Definition py_in (x c : pyval) : outcome bool :=
  match c with
  | PList l | PTuple l => Ok (existsb (fun e => py_eq e x) l)
  | PStr s =>
      match x with
      | PStr t => Ok (is_substring t s)
      | _ => Raise TypeError
      end
  | PDict d =>
      if hashable x then
        match x with
        | PStr k => Ok (bool_decide (is_Some (dict_get k d)))
        | _ => Ok false
        end
      else Raise TypeError
  | _ => Raise TypeError
  end.

Definition py_not_in (x c : pyval) : outcome bool :=
  let? b := py_in x c in Ok (negb b).

(** [c[k]] for a string literal [k]: only a dictionary can be subscripted by
    a string. *)
Definition getitem (c : pyval) (k : string) : outcome pyval :=
  match c with
  | PDict d =>
      match dict_get k d with
      | Some v => Ok v
      | None => Raise (KeyError (PStr k))
      end
  | _ => Raise TypeError
  end.

(** [c[k] = v] for a string literal [k]. *)
Definition setitem (c : pyval) (k : string) (v : pyval) : outcome pyval :=
  match c with
  | PDict d => Ok (PDict (dict_set k v d))
  | _ => Raise TypeError
  end.

Definition string_chars (s : string) : list pyval :=
  map (fun c => PStr (String c EmptyString)) (String.list_ascii_of_string s).

(** [len(c)]. *)
Definition py_len (c : pyval) : outcome Z :=
  match c with
  | PList l | PTuple l => Ok (Z.of_nat (length l))
  | PStr s => Ok (Z.of_nat (String.length s))
  | PDict d => Ok (Z.of_nat (length d))
  | _ => Raise TypeError
  end.

(** The elements [for x in c] visits. *)
Definition py_iter (c : pyval) : outcome (list pyval) :=
  match c with
  | PList l | PTuple l => Ok l
  | PStr s => Ok (string_chars s)
  | PDict d => Ok (map PStr (dict_keys d))
  | _ => Raise TypeError
  end.

(** *** JSON documents *)

Inductive json : Type :=
  | JNull
  | JBool (b : bool)
  | JInt (z : Z)
  | JFloat (f : pyfloat)
  | JStr (s : string)
  | JArr (l : list json)
  | JObj (l : list (string * json)).

(** [json.dumps]: lists and tuples both become arrays. *)
Fixpoint json_dumps (v : pyval) : json :=
  match v with
  | PNone => JNull
  | PBool b => JBool b
  | PInt z => JInt z
  | PFloat f => JFloat f
  | PStr s => JStr s
  | PList l | PTuple l => JArr (map json_dumps l)
  | PDict d => JObj (map (fun kv => (fst kv, json_dumps (snd kv))) d)
  end.

(** [json.load]: arrays become lists; of a repeated key the last value is
    kept. *)
Fixpoint json_load (j : json) : pyval :=
  match j with
  | JNull => PNone
  | JBool b => PBool b
  | JInt z => PInt z
  | JFloat f => PFloat f
  | JStr s => PStr s
  | JArr l => PList (map json_load l)
  | JObj l =>
      PDict ((fix go (l : list (string * json)) (acc : list (string * pyval)) :=
                match l with
                | [] => acc
                | (k, j') :: l' => go l' (dict_set k (json_load j') acc)
                end) l [])
  end.

End Py.

Export Py.

(** ** The outside world *)

(** What a file holds, as far as [json.load] can tell. *)
Inductive text : Type :=
  | NotJson
  | Document (j : json).

(** A line written by [print]. *)
Inductive line : Type :=
  | Say (s : string)
  | SayExn (s : string) (e : exn).

(** Files by path, the paths that cannot be opened for reading or for
    writing, the open file descriptors and the lines printed so far. *)
Record World : Type := mkWorld {
  files : gmap string text;
  no_read : gset string;
  no_write : gset string;
  fds : gset Z;
  stdout : list line
}.

Definition with_files (f : gmap string text) (w : World) : World :=
  mkWorld f (no_read w) (no_write w) (fds w) (stdout w).

Definition with_stdout (o : list line) (w : World) : World :=
  mkWorld (files w) (no_read w) (no_write w) (fds w) o.

(** The file at a path; the empty path names no file. *)
Definition file_at (w : World) (path : string) : option text :=
  if String.eqb path "" then None else files w !! path.

(** [json.load(infile)]. *)
Definition json_parse (t : text) : outcome pyval :=
  match t with
  | NotJson => Raise JSONDecodeError
  | Document j => Ok (json_load j)
  end.

(** [os.path.exists(p)]: [os.stat] takes a path or a file descriptor (an
    [int], hence also a [bool]) and rejects every other type; a descriptor
    that does not fit a C [int] overflows. *)
Definition os_path_exists (w : World) (p : pyval) : outcome bool :=
  let fd (z : Z) :=
    if ((z <? - 2147483648) || (2147483647 <? z))%Z then Raise OverflowError
    else Ok (bool_decide (z ∈ fds w)) in
  match p with
  | PStr s => Ok (bool_decide (is_Some (file_at w s)))
  | PInt z => fd z
  | PBool b => fd (Z_of_bool b)
  | _ => Raise TypeError
  end.

(** ** Methods: state and exceptions *)

(** The state a method runs in: its instance and the world. *)
Record st (T : Type) : Type := St { self : T; world : World }.
Arguments St {T} self world.
Arguments self {T} s.
Arguments world {T} s.

(** A method body: from a state to an outcome and the state it leaves, also
    when it raises. *)
Definition M (S A : Type) : Type := S -> outcome A * S.

Definition ret {S A} (a : A) : M S A := fun s => (Ok a, s).

Definition raise {S A} (e : exn) : M S A := fun s => (Raise e, s).

Definition bind {S A B} (m : M S A) (k : A -> M S B) : M S B :=
  fun s =>
    match m s with
    | (Ok a, s') => k a s'
    | (Raise e, s') => (Raise e, s')
    end.

Definition lift {S A} (o : outcome A) : M S A := fun s => (o, s).

(** [try: m except Exception as e: h e]. *)
Definition try_except {S A} (m : M S A) (h : exn -> M S A) : M S A :=
  fun s =>
    match m s with
    | (Ok a, s') => (Ok a, s')
    | (Raise e, s') => h e s'
    end.

Notation "'let!' x ':=' m 'in' k" := (bind m (fun x => k))
  (at level 10, x name, m at level 100, k at level 200).
Notation "m '>>!' k" := (bind m (fun _ => k))
  (at level 62, right associativity).

Definition get_self {T} : M (st T) T := fun s => (Ok (self s), s).

Definition put_self {T} (x : T) : M (st T) unit :=
  fun s => (Ok tt, St x (world s)).

Definition print {T} (l : line) : M (st T) unit :=
  fun s => (Ok tt, St (self s) (with_stdout (stdout (world s) ++ [l]) (world s))).

(** [open(path, "r")] followed by reading the whole file. *)
Definition read_file (w : World) (path : string) : outcome text :=
  if bool_decide (path ∈ no_read w) then Raise OSError
  else match file_at w path with
       | Some t => Ok t
       | None => Raise OSError
       end.

Definition open_read {T} (path : string) : M (st T) text :=
  fun s => (read_file (world s) path, s).

(** [open(path, "w")] followed by [outfile.write(t)]. *)
Definition open_write {T} (path : string) (t : text) : M (st T) unit :=
  fun s =>
    if String.eqb path "" || bool_decide (path ∈ no_write (world s))
    then (Raise OSError, s)
    else (Ok tt, St (self s) (with_files (<[path := t]> (files (world s))) (world s))).

(** ** UGConnProfile.py *)

Module ConnProfile.

Definition version : Z := 1.

Definition _empty_profile : pyval :=
  PDict [("version", PInt version);
         ("servers", PList []);
         ("start_vnc_srv", PBool false);
         ("forwarding_ports", PList [])].

Record UGConnProfile : Type := mk { _profile : pyval }.

Definition __init__ : UGConnProfile := mk _empty_profile.

Definition __setitem__ (key : string) (value : pyval)
  : M (st UGConnProfile) unit :=
  let! me := get_self in
  let! p := lift (setitem (_profile me) key value) in
  put_self (mk p).

Definition __getitem__ (me : UGConnProfile) (key : string) : outcome pyval :=
  getitem (_profile me) key.

(** The body of the [try] block of [load_profile]. *)
Definition load_profile_try (file_path : string) : M (st UGConnProfile) unit :=
  let! infile := open_read file_path in
  let! json_data := lift (json_parse infile) in
  let! absent := lift (py_not_in (PStr "version") json_data) in
  let! mismatch :=
    (if absent : bool then ret true
     else let! v := lift (getitem json_data "version") in
          ret (negb (py_eq v (PInt version)))) in
  if mismatch : bool then print (Say "Connection Profile version mismatch. ")
  else put_self (mk json_data).

Definition load_profile (file_path : string) : M (st UGConnProfile) unit :=
  put_self (mk _empty_profile) >>!
  try_except (load_profile_try file_path)
    (fun _ =>
       put_self (mk _empty_profile) >>!
       print (Say "Exception happens when trying to load profile. Using default profile. ")).

Definition save_profile (file_path : string) : M (st UGConnProfile) unit :=
  try_except
    (let! me := get_self in
     open_write file_path (Document (json_dumps (_profile me))))
    (fun _ => raise Exception_).

End ConnProfile.

(** ** UGUserProfile.py *)

Module UserProfile.

Import ConnProfile.

Definition version : Z := 1.

Definition _supported_viewers : pyval := PList [PStr "TigerVNC"; PStr "RealVNC"].

Definition _empty_session : list (string * pyval) :=
  [("name", PStr "");
   ("conn_profile", PStr "");
   ("last_server", PStr "");
   ("username", PStr "");
   ("private_key_path", PStr "");
   ("vnc_passwd_path", PStr "")].

Definition _empty_user_profile : pyval :=
  PDict [("version", PInt version);
         ("viewer", PStr "TigerVNC");
         ("last_session", PInt (-1));
         ("sessions", PList [])].

Record UGUserProfile : Type := mk {
  _profile : pyval;
  _conn_profiles : gmap string UGConnProfile
}.

Definition put_profile (p : pyval) : M (st UGUserProfile) unit :=
  let! me := get_self in put_self (mk p (_conn_profiles me)).

Definition __setitem__ (key : string) (value : pyval)
  : M (st UGUserProfile) unit :=
  let! me := get_self in
  let! p := lift (setitem (_profile me) key value) in
  put_profile p.

Definition __getitem__ (key : string) : M (st UGUserProfile) pyval :=
  let! me := get_self in lift (getitem (_profile me) key).

(** [self._conn_profiles[k]]: the keys are file stems, so only a string can
    be found; an unhashable [k] is a [TypeError]. *)
Definition conn_profiles_getitem (cps : gmap string UGConnProfile) (k : pyval)
  : outcome UGConnProfile :=
  if hashable k then
    match k with
    | PStr name =>
        match cps !! name with
        | Some c => Ok c
        | None => Raise (KeyError k)
        end
    | _ => Raise (KeyError k)
    end
  else Raise TypeError.

Definition load_session (me : UGUserProfile) (w : World) (session : pyval)
  : outcome pyval :=
  let loaded_session := _empty_session in
  let? name := getitem session "name" in
  let loaded_session := dict_set "name" name loaded_session in
  let? cp := getitem session "conn_profile" in
  let loaded_session := dict_set "conn_profile" cp loaded_session in
  let? cp := getitem session "conn_profile" in
  let? conn_profile := conn_profiles_getitem (_conn_profiles me) cp in
  let? last_server := getitem session "last_server" in
  let? servers := ConnProfile.__getitem__ conn_profile "servers" in
  let? unknown := py_not_in last_server servers in
  let? loaded_session :=
    (if unknown : bool then Ok (dict_set "last_server" (PStr "") loaded_session)
     else let? last_server := getitem session "last_server" in
          Ok (dict_set "last_server" last_server loaded_session)) in
  let? username := getitem session "username" in
  let loaded_session := dict_set "username" username loaded_session in
  let? key := getitem session "private_key_path" in
  let? key_exists := os_path_exists w key in
  if negb key_exists then
    Ok (PDict (dict_set "private_key_path" (PStr "") loaded_session))
  else
    let? key := getitem session "private_key_path" in
    let loaded_session := dict_set "private_key_path" key loaded_session in
    let? vnc := getitem session "vnc_passwd_path" in
    let? vnc_exists := os_path_exists w vnc in
    if negb vnc_exists then
      Ok (PDict (dict_set "vnc_passwd_path" (PStr "") loaded_session))
    else
      let? vnc := getitem session "vnc_passwd_path" in
      Ok (PDict (dict_set "vnc_passwd_path" vnc loaded_session)).

(** [self["sessions"].append(x)]: the list held by the profile grows in
    place; only a list has [append]. *)
Definition sessions_append (x : pyval) : M (st UGUserProfile) unit :=
  let! sessions := __getitem__ "sessions" in
  match sessions with
  | PList l => __setitem__ "sessions" (PList (l ++ [x]))
  | _ => raise AttributeError
  end.

(** The [for session in json_data["sessions"]] loop of [load_profile]. *)
Fixpoint load_sessions (todo : list pyval) : M (st UGUserProfile) unit :=
  match todo with
  | [] => ret tt
  | session :: todo' =>
      let! loaded_session :=
        (fun s => (load_session (self s) (world s) session, s)) in
      sessions_append loaded_session >>!
      load_sessions todo'
  end.

(** The body of the [try] block of [load_profile]. *)
Definition load_profile_try (file_path : string) : M (st UGUserProfile) unit :=
  let! infile := open_read file_path in
  let! json_data := lift (json_parse infile) in
  let! absent := lift (py_not_in (PStr "version") json_data) in
  let! mismatch :=
    (if absent : bool then ret true
     else let! v := lift (getitem json_data "version") in
          ret (negb (py_eq v (PInt version)))) in
  if mismatch : bool then raise ValueError else
  let! viewer := lift (getitem json_data "viewer") in
  let! unsupported := lift (py_not_in viewer _supported_viewers) in
  if unsupported : bool then raise ValueError else
  let! viewer := lift (getitem json_data "viewer") in
  __setitem__ "viewer" viewer >>!
  let! last_session := lift (getitem json_data "last_session") in
  let! negative := lift (py_lt_int last_session 0) in
  let! invalid :=
    (if negative : bool then ret true
     else let! last_session := lift (getitem json_data "last_session") in
          let! sessions := lift (getitem json_data "sessions") in
          let! n := lift (py_len sessions) in
          lift (py_ge_int last_session n)) in
  if invalid : bool then raise ValueError else
  let! last_session := lift (getitem json_data "last_session") in
  __setitem__ "last_session" last_session >>!
  let! sessions := lift (getitem json_data "sessions") in
  let! todo := lift (py_iter sessions) in
  load_sessions todo.

Definition load_profile (file_path : string) : M (st UGUserProfile) unit :=
  print (Say "UGUserProfile loading...") >>!
  put_profile _empty_user_profile >>!
  try_except (load_profile_try file_path)
    (fun e =>
       put_profile _empty_user_profile >>!
       print (SayExn "UGUserProfile: load_profile:" e) >>!
       print (Say "Unable to load the user profile. Using the default profile instead.")).

Definition add_new_session (name conn_profile : string)
  : M (st UGUserProfile) unit :=
  let new_session := _empty_session in
  let new_session := dict_set "name" (PStr name) new_session in
  let! me := get_self in
  if negb (bool_decide (is_Some (_conn_profiles me !! conn_profile)))
  then raise ValueError else
  let new_session := dict_set "conn_profile" (PStr conn_profile) new_session in
  sessions_append (PDict new_session).

(** [c[i]] for an [int] [i]. *)
Definition py_index (c : pyval) (i : Z) : outcome pyval :=
  let nth (l : list pyval) :=
    let n := Z.of_nat (length l) in
    let j := if (i <? 0)%Z then (i + n)%Z else i in
    if ((j <? 0) || (n <=? j))%Z then Raise IndexError
    else match l !! Z.to_nat j with
         | Some x => Ok x
         | None => Raise IndexError
         end in
  match c with
  | PList l | PTuple l => nth l
  | PStr s => nth (string_chars s)
  | PDict _ => Raise (KeyError (PInt i))
  | _ => Raise TypeError
  end.

(** [session[key] = value], where [session] is the object bound by
    [session = self["sessions"][session_idx]]: the assignment changes the
    element held by the profile. *)
Definition session_setitem (session_idx : Z) (key : string) (value : pyval)
  : M (st UGUserProfile) unit :=
  let! sessions := __getitem__ "sessions" in
  let! session := lift (py_index sessions session_idx) in
  let! session := lift (setitem session key value) in
  match sessions with
  | PList l => __setitem__ "sessions" (PList (<[Z.to_nat session_idx := session]> l))
  | PTuple l => __setitem__ "sessions" (PTuple (<[Z.to_nat session_idx := session]> l))
  | _ => ret tt
  end.

Definition session_getitem (session_idx : Z) (key : string)
  : M (st UGUserProfile) pyval :=
  let! sessions := __getitem__ "sessions" in
  let! session := lift (py_index sessions session_idx) in
  lift (getitem session key).

Definition modify_session (session_idx : Z) (username last_server : string)
    (private_key_path vnc_passwd_path : option string)
  : M (st UGUserProfile) unit :=
  let! out_of_range :=
    (if (session_idx <? 0)%Z then ret true
     else let! sessions := __getitem__ "sessions" in
          let! n := lift (py_len sessions) in
          ret (n <=? session_idx)%Z) in
  if out_of_range : bool then raise IndexError else
  __setitem__ "last_session" (PInt session_idx) >>!
  let! sessions := __getitem__ "sessions" in
  let! _session := lift (py_index sessions session_idx) in
  session_setitem session_idx "username" (PStr username) >>!
  let! cp := session_getitem session_idx "conn_profile" in
  let! me := get_self in
  let! conn_profile := lift (conn_profiles_getitem (_conn_profiles me) cp) in
  let! servers := lift (ConnProfile.__getitem__ conn_profile "servers") in
  let! unknown := lift (py_not_in (PStr last_server) servers) in
  if unknown : bool then raise ValueError else
  session_setitem session_idx "last_server" (PStr last_server) >>!
  (match private_key_path with
   | Some p => session_setitem session_idx "private_key_path" (PStr p)
   | None => ret tt
   end) >>!
  (match vnc_passwd_path with
   | Some p => session_setitem session_idx "vnc_passwd_path" (PStr p)
   | None => ret tt
   end).

Definition change_viewer (viewer : string) : M (st UGUserProfile) unit :=
  let! unsupported := lift (py_not_in (PStr viewer) _supported_viewers) in
  if unsupported : bool then raise NotImplementedError else
  __setitem__ "viewer" (PStr viewer).

Definition save_profile (file_path : string) : M (st UGUserProfile) unit :=
  try_except
    (let! me := get_self in
     open_write file_path (Document (json_dumps (_profile me))))
    (fun _ => raise Exception_).

(** One iteration of the loop of [query_sessions]: the dictionary literal,
    its entries evaluated in order. *)
Definition queried_session (me : UGUserProfile) (session : pyval)
  : outcome pyval :=
  let? name := getitem session "name" in
  let? cp := getitem session "conn_profile" in
  let? conn_profile := conn_profiles_getitem (_conn_profiles me) cp in
  let? servers := ConnProfile.__getitem__ conn_profile "servers" in
  let? last_server := getitem session "last_server" in
  let? username := getitem session "username" in
  let? key := getitem session "private_key_path" in
  let passwd := negb (py_eq key (PStr "")) in
  let? cp := getitem session "conn_profile" in
  let? conn_profile := conn_profiles_getitem (_conn_profiles me) cp in
  let? vnc_manual := ConnProfile.__getitem__ conn_profile "vnc_manual" in
  let? vnc := getitem session "vnc_passwd_path" in
  let vnc_passwd := negb (py_eq vnc (PStr "")) in
  Ok (PDict [("name", name);
             ("servers", servers);
             ("last_server", last_server);
             ("username", username);
             ("passwd", PBool passwd);
             ("vnc_manual", vnc_manual);
             ("vnc_passwd", PBool vnc_passwd)]).

Fixpoint query_loop (me : UGUserProfile) (todo : list pyval)
    (queried_sessions_list : list pyval) : outcome (list pyval) :=
  match todo with
  | [] => Ok queried_sessions_list
  | session :: todo' =>
      let? q := queried_session me session in
      query_loop me todo' (queried_sessions_list ++ [q])
  end.

Definition query_sessions (me : UGUserProfile) : outcome pyval :=
  let? sessions := getitem (_profile me) "sessions" in
  let? todo := py_iter sessions in
  let? l := query_loop me todo [] in
  Ok (PList l).

End UserProfile.

(** ** UGConnection.py *)

Module Connection.

Inductive credential : Type :=
  | Password (passwd : string)
  | KeyFile (key_filename : string).

(** What the manager asks of the SSH client it owns. *)
Inductive call : Type :=
  | Close
  | Connect (hostname username : string) (c : credential).

Record SSHClient : Type := mkClient { calls : list call }.

Record UGConnection : Type := mk {
  connected : bool;
  hostname : option string;
  username : option string;
  client : SSHClient
}.

Definition __init__ : UGConnection := mk false None None (mkClient []).

Definition client_close : M (st UGConnection) unit :=
  let! me := get_self in
  put_self (mk (connected me) (hostname me) (username me)
               (mkClient (calls (client me) ++ [Close]))).

Definition disconnect : M (st UGConnection) unit :=
  client_close >>!
  let! me := get_self in
  put_self (mk (connected me) None (username me) (client me)) >>!
  let! me := get_self in
  put_self (mk (connected me) (hostname me) None (client me)) >>!
  let! me := get_self in
  put_self (mk false (hostname me) (username me) (client me)).

Section Transport.

(** The remote side: what an authentication attempt raises, if anything. *)
Variable remote : string -> string -> credential -> option exn.

Definition client_connect (h u : string) (c : credential)
  : M (st UGConnection) unit :=
  let! me := get_self in
  put_self (mk (connected me) (hostname me) (username me)
               (mkClient (calls (client me) ++ [Connect h u c]))) >>!
  match remote h u c with
  | Some e => raise e
  | None => ret tt
  end.

Definition same_endpoint (me : UGConnection) (h u : string) : bool :=
  match hostname me with
  | Some h' => String.eqb h h'
  | None => false
  end &&
  match username me with
  | Some u' => String.eqb u u'
  | None => false
  end.

Definition connect (h u : string) (passwd key_filename : option string)
  : M (st UGConnection) unit :=
  let! me := get_self in
  let! reuse :=
    (if connected me then
       if same_endpoint me h u then
         print (Say ("Connection already established on " +:+ u +:+ "@" +:+ h)) >>!
         ret true
       else
         print (Say "Hostname or credential mismatch. Disconnect that connection. ") >>!
         ret false
     else ret false) in
  if reuse : bool then ret tt else
  disconnect >>!
  try_except
    ((match passwd with
      | Some p => client_connect h u (Password p)
      | None =>
          match key_filename with
          | Some k => client_connect h u (KeyFile k)
          | None => raise ValueError
          end
      end) >>!
     let! me := get_self in
     put_self (mk (connected me) (Some h) (username me) (client me)) >>!
     let! me := get_self in
     put_self (mk (connected me) (hostname me) (Some u) (client me)) >>!
     let! me := get_self in
     put_self (mk true (hostname me) (username me) (client me)))
    (fun e => raise e).

End Transport.

End Connection.

(** ** UGUserProfile.py: construction *)

Module Construction.

Import ConnProfile UserProfile.

(** The class [UGUserProfile], which has one attribute that changes. *)
Record UGUserProfile_class : Type := mkClass { instantiated : bool }.

(** [s.endswith(suffix)]. *)
Fixpoint endswith (s suffix : string) : bool :=
  String.eqb s suffix ||
  match s with
  | EmptyString => false
  | String _ s' => endswith s' suffix
  end.

(** [s[:-n]] for a positive [n]. *)
Definition drop_last (n : nat) (s : string) : string :=
  String.substring 0 (String.length s - n) s.

Section Directory.

(** [os.listdir]: the names in a directory, or the exception it raises. *)
Variable os_listdir : World -> string -> outcome (list string).

Definition __new__ : M (st UGUserProfile_class) unit :=
  let! cls := get_self in
  if instantiated cls then raise ValueError else ret tt.

(** [conn_profile = UGConnProfile()] followed by
    [conn_profile.load_profile(path)]. *)
Definition load_conn_profile (path : string)
  : M (st UGUserProfile_class) UGConnProfile :=
  fun s =>
    match ConnProfile.load_profile path (St ConnProfile.__init__ (world s)) with
    | (Ok _, s') => (Ok (self s'), St (self s) (world s'))
    | (Raise e, s') => (Raise e, St (self s) (world s'))
    end.

(** The [for file_name in os.listdir("../profile")] loop of [__init__]. *)
Fixpoint scan (names : list string) (_conn_profiles : gmap string UGConnProfile)
  : M (st UGUserProfile_class) (gmap string UGConnProfile) :=
  match names with
  | [] => ret _conn_profiles
  | file_name :: names' =>
      if endswith file_name ".json" then
        let! conn_profile := load_conn_profile ("../profile/" +:+ file_name) in
        scan names' (<[drop_last 5 file_name := conn_profile]> _conn_profiles)
      else scan names' _conn_profiles
  end.

Definition __init__ : M (st UGUserProfile_class) UGUserProfile :=
  let _profile := _empty_user_profile in
  let! names := (fun s => (os_listdir (world s) "../profile", s)) in
  let! _conn_profiles := scan names ∅ in
  put_self (mkClass true) >>!
  ret (UserProfile.mk _profile _conn_profiles).

(** [UGUserProfile()]: [__new__], then [__init__] on the new object. *)
Definition construct : M (st UGUserProfile_class) UGUserProfile :=
  __new__ >>! __init__.

End Directory.

End Construction.

(** ** UGConnection.py: remote commands and keys *)

Module Keys.

Import Connection.

(** What a method of this part raises: the two exceptions [save_keys] raises
    itself, or an exception raised beneath it. *)
Inductive failure : Type :=
  | PermissionError
  | SystemError (exit_status : Z)
  | Raised (e : exn).

Inductive result (A : Type) : Type :=
  | Done (a : A)
  | Failed (f : failure).
Arguments Done {A} a.
Arguments Failed {A} f.

(** The manager together with the commands its client was asked to run. *)
Record Manager : Type := mkManager {
  conn : UGConnection;
  sent : list string
}.

(** The streams of a running command, as far as the manager uses them:
    [stdout.channel.recv_exit_status()]. *)
Record channel : Type := mkChannel { recv_exit_status : Z }.

Definition K (A : Type) : Type := st Manager -> result A * st Manager.

Definition kret {A} (a : A) : K A := fun s => (Done a, s).

Definition kfail {A} (f : failure) : K A := fun s => (Failed f, s).

Definition kbind {A B} (m : K A) (k : A -> K B) : K B :=
  fun s =>
    match m s with
    | (Done a, s') => k a s'
    | (Failed f, s') => (Failed f, s')
    end.

Notation "'let+' x ':=' m 'in' k" := (kbind m (fun x => k))
  (at level 10, x name, m at level 100, k at level 200).

Section Remote.

(** The key [RSAKey.generate(2048)] returns, in base 64; [getpass.getuser()]
    and [socket.gethostname()]; and the remote side: the exit status of a
    command, or the exception the client raises for it. *)
Variable generated_key : string.
Variable os_username os_hostname : string.
Variable remote_run : string -> outcome Z.

(** [rsa_key.write_private_key_file(key_filename)]: the file holds a key,
    which is no JSON document. *)
Definition write_private_key_file (key_filename : string) : K unit :=
  fun s =>
    match open_write key_filename NotJson s with
    | (Ok _, s') => (Done tt, s')
    | (Raise e, s') => (Failed (Raised e), s')
    end.

Definition ssh_keygen (key_filename : string) : K string :=
  let+ _written := write_private_key_file key_filename in
  kret ("ssh-rsa " +:+ generated_key +:+ " " +:+ os_username +:+ "@" +:+ os_hostname).

(** [self.client.exec_command(command)]. *)
Definition client_exec_command (command : string) : K channel :=
  fun s =>
    let s' := St (mkManager (conn (self s)) (sent (self s) ++ [command])) (world s) in
    match remote_run command with
    | Ok status => (Done (mkChannel status), s')
    | Raise e => (Failed (Raised e), s')
    end.

Definition exec_command (command : string) : K channel :=
  client_exec_command command.

Definition exec_command_blocking (command : string) : K (Z * channel) :=
  let+ streams := client_exec_command command in
  let exit_status := recv_exit_status streams in
  kret (exit_status, streams).

(** The command [save_keys] sends for a public key line. *)
Definition install_command (pub_key : string) : string :=
  "mkdir -p ~/.ssh && chmod 700 ~/.ssh && echo '" +:+ pub_key +:+
  "' >>  ~/.ssh/authorized_keys".

Definition save_keys (key_filename : string) : K unit :=
  fun s =>
    if negb (connected (conn (self s))) then kfail PermissionError s
    else
      (let+ pub_key := ssh_keygen key_filename in
       let+ answer := exec_command_blocking (install_command pub_key) in
       if negb (fst answer =? 0)%Z then kfail (SystemError (fst answer))
       else kret tt) s.

End Remote.

End Keys.

(** * Vocabulary of the properties *)

(** ** Connection lifecycle *)

(** The manager is connected to the endpoint [(h, u)]. *)
Definition connected_to (me : Connection.UGConnection) (h u : string) : Prop :=
  Connection.connected me = true /\
  Connection.hostname me = Some h /\
  Connection.username me = Some u.

(** A server that accepts every authentication. *)
Definition open_server (h u : string) (c : Connection.credential) : option exn :=
  None.

(** A world with no file, no open descriptor and nothing printed. *)
Definition quiet_world : World := mkWorld ∅ ∅ ∅ ∅ [].

(** ** Connection profiles *)

(** The [version] entry of a loaded document, if it is a dictionary that has
    one. *)
Definition version_field (v : pyval) : option pyval :=
  match v with
  | PDict d => dict_get "version" d
  | _ => None
  end.

(** The ways a connection profile file fails to load: it cannot be read, it
    is not JSON, it has no [version], or its [version] differs from the
    supported one. *)
Inductive conn_load_rejects (w : World) (path : string) : Prop :=
  | rejects_unreadable :
      path ∈ no_read w -> conn_load_rejects w path
  | rejects_missing :
      file_at w path = None -> conn_load_rejects w path
  | rejects_not_json :
      file_at w path = Some NotJson -> conn_load_rejects w path
  | rejects_no_version j :
      file_at w path = Some (Document j) ->
      version_field (json_load j) = None ->
      conn_load_rejects w path
  | rejects_other_version j ver :
      file_at w path = Some (Document j) ->
      version_field (json_load j) = Some ver ->
      py_eq ver (PInt ConnProfile.version) = false ->
      conn_load_rejects w path.

(** The dictionary a connection profile file is accepted with: the document,
    when it can be read, is a JSON object and carries the supported
    [version]. *)
Definition conn_accepts (w : World) (path : string) : option pyval :=
  if bool_decide (path ∈ no_read w) then None
  else match file_at w path with
       | Some (Document j) =>
           match json_load j with
           | PDict d =>
               match dict_get "version" d with
               | Some ver =>
                   if py_eq ver (PInt ConnProfile.version)
                   then Some (PDict d) else None
               | None => None
               end
           | _ => None
           end
       | _ => None
       end.

(** A loaded instance and a file written for a later schema. *)
Definition stale_profile : ConnProfile.UGConnProfile :=
  ConnProfile.mk (PDict [("version", PInt 1); ("servers", PList [PStr "host1"])]).

Definition future_file : World :=
  mkWorld {["eecg.json" := Document (JObj [("version", JInt 2);
                                           ("servers", JArr [JStr "host9"])])]}
          ∅ ∅ ∅ [].










(** The ECF profile of the doctest, cut down to two servers. *)
Definition ecf_profile : ConnProfile.UGConnProfile :=
  ConnProfile.mk
    (PDict [("version", PInt 1);
            ("servers", PList [PStr "remote.ecf.utoronto.ca"; PStr "p2.ecf.utoronto.ca"]);
            ("start_vnc_srv", PBool false);
            ("forwarding_ports", PList [PTuple [PInt 2000; PInt 1000]])]).

(** What a value becomes when written by [json.dumps] and read back by
    [json.load]. *)
Definition reloaded (v : pyval) : pyval := json_load (json_dumps v).

(** ** User profiles *)

(** The entry [k] of a session is the empty string. *)
Definition empty_path (session : pyval) (k : string) : Prop :=
  getitem session k = Ok (PStr "").

(** A user profile that knows one catalog, [catalogX], with three hosts. *)
Definition catalogX : ConnProfile.UGConnProfile :=
  ConnProfile.mk
    (PDict [("version", PInt 1);
            ("servers", PList [PStr "host1"; PStr "host2"; PStr "host3"]);
            ("start_vnc_srv", PBool true);
            ("forwarding_ports", PList [])]).

Definition fresh_user_profile : UserProfile.UGUserProfile :=
  UserProfile.mk UserProfile._empty_user_profile {["catalogX" := catalogX]}.

(** A saved session whose key file is gone while its VNC password file is
    still there. *)
Definition orphan_vnc_session : pyval :=
  PDict [("name", PStr "A");
         ("conn_profile", PStr "catalogX");
         ("last_server", PStr "host2");
         ("username", PStr "alice");
         ("private_key_path", PStr "id_rsa");
         ("vnc_passwd_path", PStr "passwd")].

Definition only_passwd_on_disk : World :=
  mkWorld {["passwd" := NotJson]} ∅ ∅ ∅ [].

(** A user profile in the shape [load_profile] builds. *)
Definition profile_with (viewer last_session : pyval) (sessions : list pyval)
  : pyval :=
  PDict [("version", PInt UserProfile.version);
         ("viewer", viewer);
         ("last_session", last_session);
         ("sessions", PList sessions)].

(** The state [load_profile] enters its [try] block in: the loading line
    printed and the profile reset to the default. *)
Definition load_start (s : st UserProfile.UGUserProfile)
  : st UserProfile.UGUserProfile :=
  St (UserProfile.mk UserProfile._empty_user_profile
        (UserProfile._conn_profiles (self s)))
     (with_stdout (stdout (world s) ++ [Say "UGUserProfile loading..."]) (world s)).



(** Reconciliation of one saved session against the catalogs [cps]. *)
Definition reconcile (cps : gmap string ConnProfile.UGConnProfile) (w : World)
    (raw : pyval) : outcome pyval :=
  UserProfile.load_session
    (UserProfile.mk UserProfile._empty_user_profile cps) w raw.


(** What the [try] block of [load_profile] has checked when it reaches its
    loop over [todo]. *)
Record header_accepted (w : World) (path : string)
    (v viewer idx : pyval) (todo : list pyval) : Prop := {
  header_read : exists t, read_file w path = Ok t /\ json_parse t = Ok v;
  header_version :
    exists ver, getitem v "version" = Ok ver /\
                py_eq ver (PInt UserProfile.version) = true;
  header_viewer :
    getitem v "viewer" = Ok viewer /\
    py_in viewer UserProfile._supported_viewers = Ok true;
  header_last_session :
    getitem v "last_session" = Ok idx /\
    py_lt_int idx 0 = Ok false /\
    exists ss n, getitem v "sessions" = Ok ss /\ py_len ss = Ok n /\
                 py_ge_int idx n = Ok false /\ py_iter ss = Ok todo
}.


(** The profile after [add_new_session("A", "catalogX")]: one session, and
    no session selected yet. *)
Definition one_session_profile : UserProfile.UGUserProfile :=
  UserProfile.mk
    (PDict [("version", PInt 1);
            ("viewer", PStr "TigerVNC");
            ("last_session", PInt (-1));
            ("sessions",
             PList [PDict [("name", PStr "A");
                           ("conn_profile", PStr "catalogX");
                           ("last_server", PStr "");
                           ("username", PStr "");
                           ("private_key_path", PStr "");
                           ("vnc_passwd_path", PStr "")]])])
    {["catalogX" := catalogX]}.

(** A catalog written under the key [query_sessions] reads. *)
Definition legacy_catalog : ConnProfile.UGConnProfile :=
  ConnProfile.mk
    (PDict [("version", PInt 1);
            ("servers", PList [PStr "host1"]);
            ("vnc_manual", PBool true);
            ("forwarding_ports", PList [])]).

(** A saved user profile with one session of [catalogX], next to the key and
    password files it names. *)
Definition saved_profile_file : World :=
  mkWorld
    {["user_profile.json" :=
        Document
          (JObj [("version", JInt 1);
                 ("viewer", JStr "RealVNC");
                 ("last_session", JInt 0);
                 ("sessions",
                  JArr [JObj [("name", JStr "A");
                              ("conn_profile", JStr "catalogX");
                              ("last_server", JStr "host2");
                              ("username", JStr "alice");
                              ("private_key_path", JStr "id_rsa");
                              ("vnc_passwd_path", JStr "passwd")]])]);
      "id_rsa" := NotJson;
      "passwd" := NotJson]}
    ∅ ∅ ∅ [].

(** ** Proof automation *)

(** Symbolic execution of a method body held in a hypothesis: unfold the
    monad, then split on every outcome and every condition met. *)
Ltac unfold_in H :=
  unfold open_read, UserProfile.__setitem__, UserProfile.put_profile,
    get_self, put_self in H;
  unfold bind, lift, ret, raise in H;
  cbn in H.

Ltac run_in H :=
  repeat (unfold_in H;
          match type of H with
          | context [match ?o with Ok _ => _ | Raise _ => _ end] =>
              destruct o eqn:?; try discriminate H
          | context [if ?b then _ else _] =>
              destruct b eqn:?; try discriminate H
          end);
  unfold_in H.

Ltac run_all H :=
  repeat (unfold_in H;
          match type of H with
          | context [match ?o with Ok _ => _ | Raise _ => _ end] =>
              destruct o eqn:?
          | context [if ?b then _ else _] => destruct b eqn:?
          | context [match ?v with PList _ => _ | _ => _ end] =>
              destruct v eqn:?
          end);
  unfold_in H.


(** ** Further vocabulary *)

(** Induction over JSON documents that reaches the elements of an array and
    the values of an object. *)
Fixpoint json_rect' (P : json -> Prop)
    (Hnull : P JNull) (Hbool : forall b, P (JBool b)) (Hint : forall z, P (JInt z))
    (Hfloat : forall f, P (JFloat f)) (Hstr : forall s, P (JStr s))
    (Harr : forall l, Forall P l -> P (JArr l))
    (Hobj : forall l, Forall (fun kj => P (snd kj)) l -> P (JObj l))
    (j : json) : P j :=
  match j with
  | JNull => Hnull
  | JBool b => Hbool b
  | JInt z => Hint z
  | JFloat f => Hfloat f
  | JStr s => Hstr s
  | JArr l =>
      Harr l
        ((fix go (l : list json) : Forall P l :=
            match l with
            | [] => Lists.List.Forall_nil P
            | x :: l' =>
                Lists.List.Forall_cons P x l'
                  (json_rect' P Hnull Hbool Hint Hfloat Hstr Harr Hobj x) (go l')
            end) l)
  | JObj l =>
      Hobj l
        ((fix go (l : list (string * json)) : Forall (fun kj => P (snd kj)) l :=
            match l with
            | [] => Lists.List.Forall_nil _
            | kj :: l' =>
                Lists.List.Forall_cons (fun kj => P (snd kj)) kj l'
                  (json_rect' P Hnull Hbool Hint Hfloat Hstr Harr Hobj (snd kj))
                  (go l')
            end) l)
  end.

(** One step of [json.load] on an object: the next pair is stored. *)
Definition load_pair (acc : list (string * pyval)) (kj : string * json)
  : list (string * pyval) :=
  dict_set (fst kj) (json_load (snd kj)) acc.

(** A world in which [locked.json] cannot be written. *)
Definition locked_world : World :=
  mkWorld {["other.json" := NotJson]} ∅ {["locked.json"]} ∅ [].

(** The EECG profile of the doctest, cut down to two servers, as a file. *)
Definition eecg_document : json :=
  JObj [("version", JInt 1);
        ("servers", JArr [JStr "ug51.eecg.toronto.edu"; JStr "ug52.eecg.toronto.edu"]);
        ("start_vnc_srv", JBool true);
        ("forwarding_ports", JArr [])].

Definition eecg_file : World :=
  mkWorld {["eecg.json" := Document eecg_document]} ∅ ∅ ∅ [].

(** The session [modify_session] leaves at the index it was given: username
    and last server overwritten, the two paths overwritten when supplied. *)
Definition modified_session (sd : list (string * pyval))
    (username last_server : string) (pk vp : option string)
  : list (string * pyval) :=
  let sd := dict_set "username" (PStr username) sd in
  let sd := dict_set "last_server" (PStr last_server) sd in
  let sd := match pk with
            | Some p => dict_set "private_key_path" (PStr p) sd
            | None => sd
            end in
  match vp with
  | Some p => dict_set "vnc_passwd_path" (PStr p) sd
  | None => sd
  end.

(** A profile with two sessions of [catalogX], the second one selected. *)
Definition two_session_profile : UserProfile.UGUserProfile :=
  UserProfile.mk
    (PDict [("version", PInt 1);
            ("viewer", PStr "TigerVNC");
            ("last_session", PInt 1);
            ("sessions",
             PList [PDict [("name", PStr "A");
                           ("conn_profile", PStr "catalogX");
                           ("last_server", PStr "");
                           ("username", PStr "");
                           ("private_key_path", PStr "");
                           ("vnc_passwd_path", PStr "")];
                    PDict [("name", PStr "B");
                           ("conn_profile", PStr "catalogX");
                           ("last_server", PStr "host3");
                           ("username", PStr "bob");
                           ("private_key_path", PStr "id_rsa");
                           ("vnc_passwd_path", PStr "")]])])
    {["catalogX" := catalogX]}.



(** A method body that neither reads nor writes the printed lines: run with
    other lines printed before, it does the same and leaves those lines. *)
Definition stdout_blind {T A : Type} (m : M (st T) A) : Prop :=
  forall me w o,
    m (St me (with_stdout o w)) =
    (let (r, s') := m (St me w) in (r, St (self s') (with_stdout o (world s')))).

(** [view] is the view [query_sessions] builds of [session]: four entries
    read from the session and its catalog, the catalog's ["vnc_manual"]
    entry, and for each of the two paths only whether it is non-empty. *)
Definition session_view (me : UserProfile.UGUserProfile) (session view : pyval)
  : Prop :=
  exists name cp c servers last username key flag vnc,
    getitem session "name" = Ok name /\
    getitem session "conn_profile" = Ok cp /\
    UserProfile.conn_profiles_getitem (UserProfile._conn_profiles me) cp = Ok c /\
    ConnProfile.__getitem__ c "servers" = Ok servers /\
    getitem session "last_server" = Ok last /\
    getitem session "username" = Ok username /\
    getitem session "private_key_path" = Ok key /\
    ConnProfile.__getitem__ c "vnc_manual" = Ok flag /\
    getitem session "vnc_passwd_path" = Ok vnc /\
    view = PDict [("name", name);
                  ("servers", servers);
                  ("last_server", last);
                  ("username", username);
                  ("passwd", PBool (negb (py_eq key (PStr ""))));
                  ("vnc_manual", flag);
                  ("vnc_passwd", PBool (negb (py_eq vnc (PStr ""))))].

(** A session [query_sessions] can build a view of: a dictionary with the
    entries the view reads, naming a catalog that holds ["servers"] and
    ["vnc_manual"]. *)
Definition queryable (me : UserProfile.UGUserProfile) (session : pyval) : Prop :=
  exists sd name cd,
    session = PDict sd /\
    is_Some (dict_get "name" sd) /\
    dict_get "conn_profile" sd = Some (PStr name) /\
    is_Some (dict_get "last_server" sd) /\
    is_Some (dict_get "username" sd) /\
    is_Some (dict_get "private_key_path" sd) /\
    is_Some (dict_get "vnc_passwd_path" sd) /\
    UserProfile._conn_profiles me !! name = Some (ConnProfile.mk (PDict cd)) /\
    is_Some (dict_get "servers" cd) /\
    is_Some (dict_get "vnc_manual" cd).

(** The profile of the example [query_sessions_with_vnc_manual]. *)
Definition legacy_profile : UserProfile.UGUserProfile :=
  UserProfile.mk
    (PDict [("version", PInt 1);
            ("viewer", PStr "TigerVNC");
            ("last_session", PInt 0);
            ("sessions",
             PList [PDict [("name", PStr "A");
                           ("conn_profile", PStr "old");
                           ("last_server", PStr "host1");
                           ("username", PStr "alice");
                           ("private_key_path", PStr "id_rsa");
                           ("vnc_passwd_path", PStr "")]])])
    {["old" := legacy_catalog]}.

(** The invariant of the connection manager: a connected manager knows its
    endpoint. *)
Definition endpoint_known (me : Connection.UGConnection) : Prop :=
  Connection.connected me = true ->
  is_Some (Connection.hostname me) /\ is_Some (Connection.username me).

(** The manager holds no connection and no endpoint. *)
Definition disconnected (me : Connection.UGConnection) : Prop :=
  Connection.connected me = false /\
  Connection.hostname me = None /\
  Connection.username me = None.

(** The credential [connect] authenticates with: the password when there is
    one, else the key file. *)
Definition chosen_credential (passwd key_filename : option string)
  : option Connection.credential :=
  match passwd, key_filename with
  | Some p, _ => Some (Connection.Password p)
  | None, Some k => Some (Connection.KeyFile k)
  | None, None => None
  end.

(** A server that knows one account, [u] on [h] with the password [p1], and
    fails every other authentication. *)
Definition strict_server (h u : string) (c : Connection.credential) : option exn :=
  match c with
  | Connection.Password p =>
      if String.eqb h "h" && String.eqb u "u" && String.eqb p "p1"
      then None else Some AuthenticationException
  | Connection.KeyFile _ => Some AuthenticationException
  end.

(** The catalog [__init__] stores for the file [stem.json] of the profile
    directory: the accepted document, or else the default. *)
Definition catalog_of (w : World) (stem : string) : ConnProfile.UGConnProfile :=
  ConnProfile.mk
    (default ConnProfile._empty_profile
       (conn_accepts w ("../profile/" +:+ stem +:+ ".json"))).

(** A profile directory with one catalog, one file of a later schema and one
    file that is no profile. *)
Definition profile_directory : World :=
  mkWorld
    {["../profile/eecg.json" := Document eecg_document;
      "../profile/new.json" := Document (JObj [("version", JInt 2)]);
      "../profile/id_rsa" := NotJson]}
    ∅ ∅ ∅ [].

Definition list_profile_directory (w : World) (dir : string)
  : outcome (list string) :=
  if String.eqb dir "../profile" then Ok ["id_rsa"; "eecg.json"; "new.json"]
  else Raise OSError.

Definition no_directory (w : World) (dir : string) : outcome (list string) :=
  Raise OSError.

(** The line that identifies a public key on the remote side: key type, key
    material, and the local user and host. *)
Definition public_key_line (key user host : string) : string :=
  "ssh-rsa " +:+ key +:+ " " +:+ user +:+ "@" +:+ host.

(** A remote side on which every command ends with status [0], and one on
    which every command ends with status [1]. *)
Definition remote_accepts (command : string) : outcome Z := Ok 0%Z.

Definition remote_refuses (command : string) : outcome Z := Ok 1%Z.

(** A connected manager that has sent no command yet. *)
Definition connected_manager : Keys.Manager :=
  Keys.mkManager
    (Connection.mk true (Some "h") (Some "u")
       (Connection.mkClient [Connection.Close;
                             Connection.Connect "h" "u" (Connection.Password "p1")]))
    [].

(** A session that reconciliation leaves as it is: six strings, a known
    catalog whose servers are a list, a last server that is empty or listed,
    and paths that are empty or exist, the VNC password path being empty
    whenever the key path is. *)
Definition settled_session (cps : gmap string ConnProfile.UGConnProfile)
    (w : World) (session : pyval) : Prop :=
  exists name cp last username key vnc cd srv,
    session = PDict [("name", PStr name);
                     ("conn_profile", PStr cp);
                     ("last_server", PStr last);
                     ("username", PStr username);
                     ("private_key_path", PStr key);
                     ("vnc_passwd_path", PStr vnc)] /\
    cps !! cp = Some (ConnProfile.mk (PDict cd)) /\
    dict_get "servers" cd = Some (PList srv) /\
    (last = "" \/ py_in (PStr last) (PList srv) = Ok true) /\
    (key = "" /\ vnc = "" \/
     is_Some (file_at w key) /\ (vnc = "" \/ is_Some (file_at w vnc))).

(** A world holding the key file the second session of
    [two_session_profile] names. *)
Definition key_on_disk : World :=
  mkWorld {["id_rsa" := NotJson]} ∅ ∅ ∅ [].

(** * Properties *)

(** ** Connection profile store *)

Section ConnProfileProperties.

Import ConnProfile.

(** [load_profile] in one equation: it returns, and the instance is the
    accepted document or else the default. *)
Lemma load_profile_eq path (s : st UGConnProfile) :
  exists out,
    load_profile path s =
      (Ok tt,
       St (mk (default _empty_profile (conn_accepts (world s) path)))
          (with_stdout out (world s))) /\
    (is_Some (conn_accepts (world s) path) -> out = stdout (world s)).
Proof.
  assert (N : forall A (P : Prop), @is_Some A None -> P)
    by (intros A P [? ?]; discriminate).
  destruct s as [me w]. unfold conn_accepts. simpl.
  unfold load_profile, try_except, bind, put_self. simpl.
  unfold load_profile_try, bind, open_read, read_file, lift. simpl.
  destruct (bool_decide (path ∈ no_read w)); simpl.
  { eexists. split; [reflexivity | apply N]. }
  destruct (file_at w path) as [[|j]|]; simpl;
    try (eexists; split; [reflexivity | apply N]).
  destruct (json_load j) as [| b | z | f | t | l | l | d]; simpl;
    try (eexists; split; [reflexivity | apply N]).
  - destruct (is_substring "version" t); simpl;
      eexists; (split; [reflexivity | apply N]).
  - destruct (existsb _ l); simpl; eexists; (split; [reflexivity | apply N]).
  - destruct (existsb _ l); simpl; eexists; (split; [reflexivity | apply N]).
  - destruct (dict_get "version" d) as [ver|]; simpl.
    + destruct (py_eq ver (PInt version)); simpl.
      * exists (stdout w). split; [destruct w; reflexivity | auto].
      * eexists; split; [reflexivity | apply N].
    + eexists; split; [reflexivity | apply N].
Qed.

Lemma with_stdout_same w : with_stdout (stdout w) w = w.
Proof. destruct w; reflexivity. Qed.

(** An accepted document becomes the stored record, as it is. *)
Lemma conn_load_accepted path (s : st UGConnProfile) v :
  conn_accepts (world s) path = Some v ->
  load_profile path s = (Ok tt, St (mk v) (world s)).
Proof.
  intros H. destruct (load_profile_eq path s) as (out & E & Ho).
  rewrite H in *. rewrite Ho in E by eauto.
  rewrite with_stdout_same in E. exact E.
Qed.

Lemma conn_rejects_not_accepted w path :
  conn_load_rejects w path -> conn_accepts w path = None.
Proof.
  unfold conn_accepts.
  intros [H | H | H | j H Hv | j ver H Hv Hne].
  - rewrite bool_decide_eq_true_2 by assumption. reflexivity.
  - rewrite H. destruct (bool_decide _); reflexivity.
  - rewrite H. destruct (bool_decide _); reflexivity.
  - rewrite H. destruct (bool_decide _); [reflexivity|].
    destruct (json_load j); try reflexivity. simpl in Hv. rewrite Hv. reflexivity.
  - rewrite H. destruct (bool_decide _); [reflexivity|].
    destruct (json_load j); try discriminate. simpl in Hv. rewrite Hv, Hne.
    reflexivity.
Qed.

(** C4: [load_profile] returns normally for every path and every world, and
    when the file cannot be read, is not JSON, has no [version] or has a
    [version] other than the supported one, the instance it leaves is the
    freshly constructed one: no servers, no forwarding ports, no automatic
    start. *)
Theorem conn_load_never_raises_and_fails_closed
    (path : string) (s : st UGConnProfile) :
  fst (load_profile path s) = Ok tt /\
  (conn_load_rejects (world s) path ->
   self (snd (load_profile path s)) = __init__ /\
   __getitem__ (self (snd (load_profile path s))) "servers" = Ok (PList []) /\
   __getitem__ (self (snd (load_profile path s))) "forwarding_ports" = Ok (PList []) /\
   __getitem__ (self (snd (load_profile path s))) "start_vnc_srv" = Ok (PBool false)).
Proof.
  destruct (load_profile_eq path s) as (out & E & _). rewrite E. simpl.
  split; [reflexivity|].
  intros H. rewrite (conn_rejects_not_accepted _ _ H). simpl.
  repeat split; reflexivity.
Qed.

(** *** Writing a dictionary and reading it back *)

Lemma dict_get_set_eq k v d : dict_get k (dict_set k v d) = Some v.
Proof.
  induction d as [|[k' v'] d IH]; simpl.
  - rewrite String.eqb_refl. reflexivity.
  - destruct (String.eqb k k') eqn:E; simpl; rewrite E; auto.
Qed.

Lemma dict_get_set_ne k k' v d :
  k <> k' -> dict_get k (dict_set k' v d) = dict_get k d.
Proof.
  intros Hne. induction d as [|[k2 v2] d IH]; simpl.
  - destruct (String.eqb_spec k k'); [contradiction | reflexivity].
  - destruct (String.eqb_spec k' k2) as [->|]; simpl.
    + destruct (String.eqb_spec k k2); [contradiction | reflexivity].
    + destruct (String.eqb k k2); auto.
Qed.

Lemma json_load_obj l :
  json_load (JObj l) =
  PDict (fold_left (fun acc kj => dict_set (fst kj) (json_load (snd kj)) acc) l []).
Proof.
  simpl. f_equal. generalize (@nil (string * pyval)).
  induction l as [|[k j] l IH]; intros acc; simpl; auto.
Qed.



Lemma reloaded_list l : reloaded (PList l) = PList (map reloaded l).
Proof.
  unfold reloaded. simpl. f_equal. rewrite map_map. reflexivity.
Qed.






End ConnProfileProperties.

Lemma conn_load_never_raises_and_fails_closed_witness :
  conn_load_rejects future_file "eecg.json" /\
  fst (ConnProfile.load_profile "eecg.json" (St stale_profile future_file)) = Ok tt /\
  self (snd (ConnProfile.load_profile "eecg.json" (St stale_profile future_file)))
    = ConnProfile.__init__.
Proof.
  assert (R : conn_load_rejects future_file "eecg.json").
  { apply (rejects_other_version _ _
             (JObj [("version", JInt 2); ("servers", JArr [JStr "host9"])])
             (PInt 2)); reflexivity. }
  split; [exact R|].
  destruct (conn_load_never_raises_and_fails_closed "eecg.json"
              (St stale_profile future_file)) as [H1 H2].
  split; [exact H1|]. exact (proj1 (H2 R)).
Defined.




(** ** User profile store *)

Section UserProfileProperties.

Import UserProfile.

(** *** Session reconciliation *)

(** C6: in a reconciled session the VNC password path is non-empty only if
    the private key path is: when the key path does not exist both paths are
    the empty string, whether or not the VNC password file exists; when the
    key path exists and the VNC password path does not, the VNC password path
    is the empty string. *)
Theorem load_session_vnc_needs_key
    (me : UGUserProfile) (w : World) (raw loaded : pyval) :
  load_session me w raw = Ok loaded ->
  (~ empty_path loaded "vnc_passwd_path" ->
   ~ empty_path loaded "private_key_path") /\
  (forall key, getitem raw "private_key_path" = Ok key ->
     os_path_exists w key = Ok false ->
     empty_path loaded "private_key_path" /\
     empty_path loaded "vnc_passwd_path") /\
  (forall key vnc, getitem raw "private_key_path" = Ok key ->
     getitem raw "vnc_passwd_path" = Ok vnc ->
     os_path_exists w key = Ok true ->
     os_path_exists w vnc = Ok false ->
     getitem loaded "private_key_path" = Ok key /\
     empty_path loaded "vnc_passwd_path").
Proof.
  unfold load_session, empty_path. intros H.
  repeat match type of H with
         | context [obind (if ?b then _ else _) _] =>
             destruct b eqn:?; simpl in H
         | context [obind ?m _] =>
             destruct m eqn:?; simpl in H; [|discriminate H]
         | context [if ?b then _ else _] => destruct b eqn:?; simpl in H
         end;
    injection H as <-; simpl.
  all: repeat split; intros; simplify_eq; try done.
  all: repeat match goal with b : bool |- _ => destruct b end;
       simpl in *; simplify_eq; try done.
  all: try (intros ?; simplify_eq; done).
  all: congruence.
Qed.

(** Reconciliation returns a session for every record that has its six
    entries, names a known catalog with a list of servers and gives its two
    paths as strings. *)
Lemma load_session_returns (me : UGUserProfile) (w : World)
    sd v1 name v2 v3 key vnc cd srv :
  dict_get "name" sd = Some v1 ->
  dict_get "conn_profile" sd = Some (PStr name) ->
  dict_get "last_server" sd = Some v2 ->
  dict_get "username" sd = Some v3 ->
  dict_get "private_key_path" sd = Some (PStr key) ->
  dict_get "vnc_passwd_path" sd = Some (PStr vnc) ->
  _conn_profiles me !! name = Some (ConnProfile.mk (PDict cd)) ->
  dict_get "servers" cd = Some (PList srv) ->
  exists loaded, load_session me w (PDict sd) = Ok loaded.
Proof.
  intros H1 Hc H2 H3 H4 H5 Hcat Hsrv.
  assert (G : forall k v, dict_get k sd = Some v -> getitem (PDict sd) k = Ok v)
    by (intros k v H; unfold getitem; rewrite H; reflexivity).
  unfold load_session.
  rewrite (G _ _ H1), (G _ _ Hc), (G _ _ H2), (G _ _ H3), (G _ _ H4), (G _ _ H5).
  cbn [obind]. unfold conn_profiles_getitem. cbn [hashable]. rewrite Hcat.
  cbn [obind]. unfold ConnProfile.__getitem__, getitem at 1.
  cbn [ConnProfile._profile]. rewrite Hsrv. cbn [obind].
  unfold py_not_in, py_in. cbn [obind os_path_exists].
  destruct (negb (existsb _ srv)); cbn [obind];
    destruct (bool_decide (is_Some (file_at w key))); cbn [negb obind];
    try (eexists; reflexivity);
    destruct (bool_decide (is_Some (file_at w vnc))); cbn [negb obind];
    eexists; reflexivity.
Qed.

(** *** Changing and querying sessions *)

Lemma bind_ok {S A B} (m : M S A) (k : A -> M S B) s a s' :
  m s = (Ok a, s') -> bind m k s = k a s'.
Proof. intros H. unfold bind. rewrite H. reflexivity. Qed.

Lemma getitem_profile k d v cps w :
  dict_get k d = Some v ->
  __getitem__ k (St (mk (PDict d) cps) w) = (Ok v, St (mk (PDict d) cps) w).
Proof.
  intros H. unfold __getitem__, bind, get_self, lift, getitem. cbn.
  rewrite H. reflexivity.
Qed.

Lemma setitem_profile k v d cps w :
  __setitem__ k v (St (mk (PDict d) cps) w)
  = (Ok tt, St (mk (PDict (dict_set k v d)) cps) w).
Proof. reflexivity. Qed.

Lemma py_index_list l idx x :
  (0 <= idx)%Z -> l !! Z.to_nat idx = Some x -> py_index (PList l) idx = Ok x.
Proof.
  intros H0 Hl. unfold py_index.
  pose proof (lookup_lt_Some _ _ _ Hl) as Hlt.
  destruct (Z.ltb_spec idx 0); [lia|].
  destruct (Z.ltb_spec idx 0); [lia|]. cbn [orb].
  destruct (Z.leb_spec (Z.of_nat (length l)) idx); [lia|].
  rewrite Hl. reflexivity.
Qed.

(** An assignment through the alias [session] shows in the profile. *)
Lemma session_setitem_list idx k v d l sd cps w :
  dict_get "sessions" d = Some (PList l) ->
  (0 <= idx)%Z ->
  l !! Z.to_nat idx = Some (PDict sd) ->
  session_setitem idx k v (St (mk (PDict d) cps) w) =
  (Ok tt,
   St (mk (PDict (dict_set "sessions"
                    (PList (<[Z.to_nat idx := PDict (dict_set k v sd)]> l)) d))
          cps) w).
Proof.
  intros Hs H0 Hl. unfold session_setitem.
  erewrite bind_ok by (apply getitem_profile; exact Hs).
  unfold lift at 1. erewrite bind_ok
    by (rewrite (py_index_list _ _ _ H0 Hl); reflexivity).
  reflexivity.
Qed.

Lemma session_getitem_list idx k v d l sd cps w :
  dict_get "sessions" d = Some (PList l) ->
  (0 <= idx)%Z ->
  l !! Z.to_nat idx = Some (PDict sd) ->
  dict_get k sd = Some v ->
  session_getitem idx k (St (mk (PDict d) cps) w) =
  (Ok v, St (mk (PDict d) cps) w).
Proof.
  intros Hs H0 Hl Hk. unfold session_getitem.
  erewrite bind_ok by (apply getitem_profile; exact Hs).
  unfold lift at 1. erewrite bind_ok
    by (rewrite (py_index_list _ _ _ H0 Hl); reflexivity).
  unfold lift, getitem. rewrite Hk. reflexivity.
Qed.

(** The writes of [modify_session] that precede its server check, for any
    profile: when the check fails the call raises [ValueError] and the
    profile has the new [last_session] and the new username. *)
Lemma modify_session_writes_before_check (s : st UGUserProfile)
    (idx : Z) (username last_server : string) (pk vp : option string)
    d l sd name c servers :
  _profile (self s) = PDict d ->
  dict_get "sessions" d = Some (PList l) ->
  (0 <= idx)%Z ->
  l !! Z.to_nat idx = Some (PDict sd) ->
  dict_get "conn_profile" sd = Some (PStr name) ->
  _conn_profiles (self s) !! name = Some c ->
  ConnProfile.__getitem__ c "servers" = Ok servers ->
  py_in (PStr last_server) servers = Ok false ->
  exists s',
    modify_session idx username last_server pk vp s = (Raise ValueError, s') /\
    __getitem__ "last_session" s' = (Ok (PInt idx), s') /\
    session_getitem idx "username" s' = (Ok (PStr username), s').
Proof.
  intros Hp Hs H0 Hl Hc Hcat Hsrv Hin.
  destruct s as [[p cps] w]. cbn in Hp, Hcat. subst p.
  pose proof (lookup_lt_Some _ _ _ Hl) as Hlt.
  set (sd' := dict_set "username" (PStr username) sd).
  set (l' := <[Z.to_nat idx := PDict sd']> l).
  set (d1 := dict_set "last_session" (PInt idx) d).
  set (d2 := dict_set "sessions" (PList l') d1).
  assert (Hs1 : dict_get "sessions" d1 = Some (PList l))
    by (unfold d1; rewrite dict_get_set_ne by discriminate; exact Hs).
  assert (Hs2 : dict_get "sessions" d2 = Some (PList l'))
    by apply dict_get_set_eq.
  assert (Hl' : l' !! Z.to_nat idx = Some (PDict sd'))
    by (apply list_lookup_insert_eq; exact Hlt).
  assert (Hc' : dict_get "conn_profile" sd' = Some (PStr name))
    by (unfold sd'; rewrite dict_get_set_ne by discriminate; exact Hc).
  exists (St (mk (PDict d2) cps) w). split; [|split].
  - unfold modify_session.
    destruct (Z.ltb_spec idx 0); [lia|].
    erewrite bind_ok; cycle 1.
    { erewrite bind_ok by (apply getitem_profile; exact Hs).
      unfold lift at 1. erewrite bind_ok by reflexivity. reflexivity. }
    destruct (Z.leb_spec (Z.of_nat (length l)) idx); [lia|].
    erewrite bind_ok by apply setitem_profile. fold d1.
    erewrite bind_ok by (apply getitem_profile; exact Hs1).
    unfold lift at 1. erewrite bind_ok
      by (rewrite (py_index_list _ _ _ H0 Hl); reflexivity).
    erewrite bind_ok by (apply session_setitem_list; eassumption).
    fold sd'. fold l'. fold d2.
    erewrite bind_ok by (eapply session_getitem_list; eassumption).
    erewrite bind_ok by reflexivity. cbn [self _conn_profiles].
    unfold lift at 1. erewrite bind_ok; cycle 1.
    { unfold conn_profiles_getitem. cbn [hashable]. rewrite Hcat. reflexivity. }
    unfold lift at 1. erewrite bind_ok by (rewrite Hsrv; reflexivity).
    unfold lift at 1. erewrite bind_ok
      by (unfold py_not_in; rewrite Hin; reflexivity).
    reflexivity.
  - apply getitem_profile. unfold d2. rewrite dict_get_set_ne by discriminate.
    apply dict_get_set_eq.
  - eapply session_getitem_list; try eassumption. apply dict_get_set_eq.
Qed.

(** C1: the scenario of the specification.  After
    [add_new_session("A", "catalogX")] the session has an empty username and
    no session is selected; [modify_session(0, "alice",
    "host-not-in-catalogX")] raises [ValueError], and the profile it leaves
    has the username ["alice"] in the session and [0] as [last_session]. *)
Theorem modify_session_rejected_server_keeps_writes :
  exists s1 s2,
    add_new_session "A" "catalogX" (St fresh_user_profile quiet_world)
      = (Ok tt, s1) /\
    self s1 = one_session_profile /\
    session_getitem 0 "username" s1 = (Ok (PStr ""), s1) /\
    __getitem__ "last_session" s1 = (Ok (PInt (-1)), s1) /\
    modify_session 0 "alice" "host-not-in-catalogX" None None s1
      = (Raise ValueError, s2) /\
    session_getitem 0 "username" s2 = (Ok (PStr "alice"), s2) /\
    __getitem__ "last_session" s2 = (Ok (PInt 0), s2) /\
    session_getitem 0 "last_server" s2 = (Ok (PStr ""), s2).
Proof.
  eexists _, _. repeat split; vm_compute; reflexivity.
Qed.

Lemma conn_profiles_getitem_known cps name c :
  cps !! name = Some c -> conn_profiles_getitem cps (PStr name) = Ok c.
Proof.
  intros H. unfold conn_profiles_getitem. cbn [hashable]. rewrite H. reflexivity.
Qed.

(** [query_sessions] raises as soon as the first session's catalog has no
    ["vnc_manual"] entry, whatever else the profile holds. *)
Lemma query_sessions_needs_vnc_manual (me : UGUserProfile)
    d sd rest name cd servers v1 v2 v3 v4 :
  _profile me = PDict d ->
  dict_get "sessions" d = Some (PList (PDict sd :: rest)) ->
  dict_get "name" sd = Some v1 ->
  dict_get "conn_profile" sd = Some (PStr name) ->
  dict_get "last_server" sd = Some v2 ->
  dict_get "username" sd = Some v3 ->
  dict_get "private_key_path" sd = Some v4 ->
  _conn_profiles me !! name = Some (ConnProfile.mk (PDict cd)) ->
  dict_get "servers" cd = Some servers ->
  dict_get "vnc_manual" cd = None ->
  query_sessions me = Raise (KeyError (PStr "vnc_manual")).
Proof.
  intros Hp Hs H1 Hc H2 H3 H4 Hcat Hsrv Hvnc.
  unfold query_sessions. rewrite Hp. unfold getitem at 1. rewrite Hs.
  cbn [obind py_iter query_loop]. unfold queried_session.
  assert (G : forall k v, dict_get k sd = Some v -> getitem (PDict sd) k = Ok v)
    by (intros k v H; unfold getitem; rewrite H; reflexivity).
  rewrite (G _ _ H1), (G _ _ Hc), (G _ _ H2), (G _ _ H3), (G _ _ H4).
  cbn [obind]. rewrite (conn_profiles_getitem_known _ _ _ Hcat). cbn [obind].
  unfold ConnProfile.__getitem__, getitem. cbn [ConnProfile._profile].
  rewrite Hsrv, Hvnc. reflexivity.
Qed.

(** With a catalog that does hold ["vnc_manual"], the call returns one view
    per session: name, servers, last server, username, the flag and the two
    presence flags. *)
Example query_sessions_with_vnc_manual :
  query_sessions
    (mk (PDict [("version", PInt 1);
                ("viewer", PStr "TigerVNC");
                ("last_session", PInt 0);
                ("sessions",
                 PList [PDict [("name", PStr "A");
                               ("conn_profile", PStr "old");
                               ("last_server", PStr "host1");
                               ("username", PStr "alice");
                               ("private_key_path", PStr "id_rsa");
                               ("vnc_passwd_path", PStr "")]])])
        {["old" := legacy_catalog]}) =
  Ok (PList [PDict [("name", PStr "A");
                    ("servers", PList [PStr "host1"]);
                    ("last_server", PStr "host1");
                    ("username", PStr "alice");
                    ("passwd", PBool true);
                    ("vnc_manual", PBool true);
                    ("vnc_passwd", PBool false)]]).
Proof. vm_compute. reflexivity. Qed.

(** C2: with a catalog in the shape [UGConnProfile] gives it, whose flag is
    stored under ["start_vnc_srv"], [query_sessions] raises [KeyError] for
    the key ["vnc_manual"] as soon as the profile has a session, although
    the session names a known catalog. *)
Theorem query_sessions_raises_on_known_catalog :
  getitem (_profile one_session_profile) "sessions" =
    Ok (PList [PDict [("name", PStr "A");
                      ("conn_profile", PStr "catalogX");
                      ("last_server", PStr "");
                      ("username", PStr "");
                      ("private_key_path", PStr "");
                      ("vnc_passwd_path", PStr "")]]) /\
  _conn_profiles one_session_profile !! "catalogX" = Some catalogX /\
  ConnProfile.__getitem__ catalogX "start_vnc_srv" = Ok (PBool true) /\
  query_sessions one_session_profile = Raise (KeyError (PStr "vnc_manual")).
Proof.
  repeat split; vm_compute; reflexivity.
Qed.

(** *** Loading a user profile *)

Local Arguments py_not_in : simpl never.
Local Arguments py_eq : simpl never.
Local Arguments py_lt_int : simpl never.
Local Arguments py_ge_int : simpl never.
Local Arguments py_len : simpl never.
Local Arguments py_iter : simpl never.
Local Arguments getitem : simpl never.
Local Arguments json_parse : simpl never.
Local Arguments read_file : simpl never.
Local Arguments load_sessions : simpl never.

Lemma py_not_in_false x c : py_not_in x c = Ok false -> py_in x c = Ok true.
Proof.
  unfold py_not_in. destruct (py_in x c) as [[|]|]; simpl; congruence.
Qed.

(** A successful run of the [try] block has passed every check and ended in
    the loop over the sessions of the document. *)
Lemma load_profile_try_ok path cps w s' :
  load_profile_try path (St (mk _empty_user_profile cps) w) = (Ok tt, s') ->
  exists v viewer idx todo,
    header_accepted w path v viewer idx todo /\
    load_sessions todo (St (mk (profile_with viewer idx []) cps) w) = (Ok tt, s').
Proof.
  intros H. unfold load_profile_try in H.
  run_in H.
  match goal with
  | E : negb _ = false |- _ => apply negb_false_iff in E
  end.
  eexists _, _, _, _. split; [|exact H].
  constructor; eauto 10 using py_not_in_false.
Qed.

Lemma load_session_same_catalogs p p' cps w raw :
  load_session (mk p cps) w raw = load_session (mk p' cps) w raw.
Proof. reflexivity. Qed.

Lemma load_sessions_cons raw todo (s : st UGUserProfile) :
  load_sessions (raw :: todo) s =
  match load_session (self s) (world s) raw with
  | Ok l => (sessions_append l >>! load_sessions todo) s
  | Raise e => (Raise e, s)
  end.
Proof. reflexivity. Qed.

(** A successful run of the loop has reconciled every session and appended
    the results, in order, to the list the profile held. *)
Lemma load_sessions_ok todo : forall viewer idx held cps w s',
  load_sessions todo (St (mk (profile_with viewer idx held) cps) w) = (Ok tt, s') ->
  exists loaded,
    Forall2 (fun raw l => reconcile cps w raw = Ok l) todo loaded /\
    s' = St (mk (profile_with viewer idx (held ++ loaded)) cps) w.
Proof.
  induction todo as [|raw todo IH]; intros viewer idx held cps w s' H.
  - cbn in H. injection H as <-. exists []. rewrite app_nil_r.
    split; [constructor | reflexivity].
  - rewrite load_sessions_cons in H. cbn [self world] in H.
    rewrite (load_session_same_catalogs _ _empty_user_profile) in H.
    fold (reconcile cps w raw) in H.
    destruct (reconcile cps w raw) as [l|e] eqn:E; [|discriminate H].
    unfold sessions_append, __getitem__ in H. unfold_in H.
    apply IH in H as (loaded & HF & ->).
    exists (l :: loaded). split; [constructor; assumption|].
    rewrite <- app_assoc. reflexivity.
Qed.

(** Neither the loop nor the [try] block touches the catalogs. *)
Lemma load_sessions_catalogs todo : forall (s : st UGUserProfile) r s',
  load_sessions todo s = (r, s') ->
  _conn_profiles (self s') = _conn_profiles (self s).
Proof.
  induction todo as [|raw todo IH]; intros s r s' H.
  - cbn in H. injection H as _ <-. reflexivity.
  - rewrite load_sessions_cons in H.
    destruct (load_session _ _ raw); [|injection H as _ <-; reflexivity].
    unfold sessions_append, __getitem__ in H.
    run_all H; try (injection H as _ <-; reflexivity).
    apply IH in H. exact H.
Qed.

Lemma load_profile_try_catalogs path (s : st UGUserProfile) r s' :
  load_profile_try path s = (r, s') ->
  _conn_profiles (self s') = _conn_profiles (self s).
Proof.
  intros H. unfold load_profile_try in H.
  run_all H; try (injection H as _ <-; reflexivity).
  apply load_sessions_catalogs in H. exact H.
Qed.

Lemma load_profile_unfold path (s : st UGUserProfile) :
  load_profile path s =
  match load_profile_try path (load_start s) with
  | (Ok a, s') => (Ok a, s')
  | (Raise e, s') =>
      (Ok tt,
       St (mk _empty_user_profile (_conn_profiles (self s')))
          (with_stdout
             ((stdout (world s') ++ [SayExn "UGUserProfile: load_profile:" e]) ++
              [Say "Unable to load the user profile. Using the default profile instead."])
             (with_stdout
                (stdout (world s') ++ [SayExn "UGUserProfile: load_profile:" e])
                (world s'))))
  end.
Proof.
  unfold load_profile, try_except, bind, print, put_profile, get_self, put_self.
  cbn. fold (load_start s).
  destruct (load_profile_try path (load_start s)) as [[a|e] s']; reflexivity.
Qed.



Lemma Qle_bool_inject a b : Qle_bool (inject_Z a) (inject_Z b) = (a <=? b)%Z.
Proof. unfold Qle_bool, inject_Z. simpl. rewrite !Z.mul_1_r. reflexivity. Qed.

Lemma py_lt_int_false z n : py_lt_int (PInt z) n = Ok false -> (n <= z)%Z.
Proof.
  unfold py_lt_int. simpl. rewrite Qle_bool_inject. intros [= H].
  apply negb_false_iff in H. apply Z.leb_le in H. exact H.
Qed.

Lemma py_ge_int_false z n : py_ge_int (PInt z) n = Ok false -> (z < n)%Z.
Proof.
  unfold py_ge_int. simpl. rewrite Qle_bool_inject. intros [= H].
  apply Z.leb_gt in H. exact H.
Qed.

(** [NaN], which [json.load] reads from the literal of that name, is
    neither below [0] nor at or above any length. *)
Remark nan_passes_both_comparisons n :
  py_lt_int (PFloat FNaN) 0 = Ok false /\ py_ge_int (PFloat FNaN) n = Ok false.
Proof. split; reflexivity. Qed.



(** A load whose [try] block runs to its end leaves the viewer and the
    [last_session] of the document and the reconciled sessions, in order. *)
Lemma load_profile_loaded path (s : st UGUserProfile) s' :
  load_profile_try path (load_start s) = (Ok tt, s') ->
  load_profile path s = (Ok tt, s') /\
  exists v viewer idx todo loaded,
    header_accepted (world s) path v viewer idx todo /\
    Forall2 (fun raw l => reconcile (_conn_profiles (self s)) (world s) raw = Ok l)
      todo loaded /\
    _profile (self s') = profile_with viewer idx loaded.
Proof.
  intros H. split; [rewrite load_profile_unfold, H; reflexivity|].
  apply load_profile_try_ok in H as (v & viewer & idx & todo & Hh & Hloop).
  apply load_sessions_ok in Hloop as (loaded & HF & ->).
  exists v, viewer, idx, todo, loaded.
  split; [destruct Hh; constructor; assumption|].
  split; [|reflexivity].
  eapply Forall2_impl; [exact HF|]. intros raw l Hl. exact Hl.
Qed.



(** A well-formed file is loaded: viewer, selected session and the session
    itself are those of the file. *)
Example load_profile_of_saved_file :
  load_profile "user_profile.json" (St fresh_user_profile saved_profile_file) =
  (Ok tt,
   St (mk (profile_with (PStr "RealVNC") (PInt 0)
             [PDict [("name", PStr "A");
                     ("conn_profile", PStr "catalogX");
                     ("last_server", PStr "host2");
                     ("username", PStr "alice");
                     ("private_key_path", PStr "id_rsa");
                     ("vnc_passwd_path", PStr "passwd")]])
          (_conn_profiles fresh_user_profile))
      (with_stdout [Say "UGUserProfile loading..."] saved_profile_file)).
Proof. vm_compute. reflexivity. Qed.


(** *** Changing and querying sessions *)

End UserProfileProperties.

Lemma load_session_vnc_needs_key_witness :
  exists loaded,
    UserProfile.load_session fresh_user_profile only_passwd_on_disk orphan_vnc_session
      = Ok loaded /\
    os_path_exists only_passwd_on_disk (PStr "passwd") = Ok true /\
    empty_path loaded "private_key_path" /\
    empty_path loaded "vnc_passwd_path".
Proof.
  eexists. split; [vm_compute; reflexivity|]. split; [vm_compute; reflexivity|].
  refine (proj1 (proj2 (load_session_vnc_needs_key
            fresh_user_profile only_passwd_on_disk orphan_vnc_session _ _))
            (PStr "id_rsa") _ _);
    vm_compute; reflexivity.
Defined.



(** ** Connection lifecycle *)

Section ConnectionProperties.

Import Connection.

Variable remote : string -> string -> credential -> option exn.

Lemma same_endpoint_connected_to me h u :
  connected_to me h u -> connected me && same_endpoint me h u = true.
Proof.
  intros (Hc & Hh & Hu). unfold same_endpoint.
  rewrite Hc, Hh, Hu, !String.eqb_refl. reflexivity.
Qed.

(** C7: connecting again to the endpoint the manager is connected to returns
    normally, leaves the instance as it was (flag, hostname, username and the
    client with its call history, so neither a close nor an authentication
    happened) and only prints the reuse message. *)
Theorem connect_same_endpoint_is_noop (h u : string)
    (passwd key_filename : option string) (s : st UGConnection) :
  connected_to (self s) h u ->
  connect remote h u passwd key_filename s =
    (Ok tt,
     St (self s)
        (with_stdout
           (stdout (world s) ++
            [Say ("Connection already established on " +:+ u +:+ "@" +:+ h)])
           (world s))).
Proof.
  intros H. pose proof (same_endpoint_connected_to _ _ _ H) as E.
  apply andb_prop in E as [Ec Ee].
  destruct s as [me w]. simpl in *.
  unfold connect, bind, get_self. simpl.
  rewrite Ec, Ee. reflexivity.
Qed.

(** C8: unless the call is a reuse of the live connection, [connect] with
    neither a password nor a key file raises [ValueError]; the only request
    made of the client is the [Close] of [disconnect], and the manager is
    left disconnected with no hostname and no username. *)
Theorem connect_without_credentials (h u : string) (s : st UGConnection) :
  connected (self s) && same_endpoint (self s) h u = false ->
  exists s',
    connect remote h u None None s = (Raise ValueError, s') /\
    connected (self s') = false /\
    hostname (self s') = None /\
    username (self s') = None /\
    calls (client (self s')) = calls (client (self s)) ++ [Close].
Proof.
  intros H. destruct s as [[c ho us cl] w]. simpl in *.
  unfold connect, bind, get_self. simpl.
  destruct c; simpl in *.
  - rewrite H. simpl. eexists. split; [reflexivity|]. simpl. auto.
  - eexists. split; [reflexivity|]. simpl. auto.
Qed.

End ConnectionProperties.

Lemma connect_same_endpoint_is_noop_witness :
  let s := St (Connection.mk true (Some "h") (Some "u")
                 (Connection.mkClient
                    [Connection.Connect "h" "u" (Connection.Password "p1")]))
              quiet_world in
  Connection.connect open_server "h" "u" (Some "p2") None s =
    (Ok tt,
     St (self s)
        (with_stdout [Say "Connection already established on u@h"] (world s))).
Proof.
  intros s.
  apply (connect_same_endpoint_is_noop open_server "h" "u" (Some "p2") None s).
  repeat split; reflexivity.
Defined.

Lemma connect_without_credentials_witness :
  exists s',
    Connection.connect open_server "h" "u" None None
      (St Connection.__init__ quiet_world) = (Raise ValueError, s') /\
    Connection.connected (self s') = false /\
    Connection.hostname (self s') = None /\
    Connection.username (self s') = None /\
    Connection.calls (Connection.client (self s')) = [] ++ [Connection.Close].
Proof.
  apply (connect_without_credentials open_server "h" "u"
           (St Connection.__init__ quiet_world)).
  reflexivity.
Defined.

(** * Further properties *)

(** ** Connection profile store *)

Section ConnProfileMore.

Import ConnProfile.

Lemma dict_set_keys_fresh k v d :
  k ∉ dict_keys d -> dict_set k v d = d ++ [(k, v)].
Proof.
  induction d as [|[k' v'] d IH]; intros H; [reflexivity|].
  cbn in *. apply not_elem_of_cons in H as [Hne Hd].
  destruct (String.eqb_spec k k'); [contradiction|].
  rewrite IH by assumption. reflexivity.
Qed.

Lemma dict_set_keys_known k v d :
  k ∈ dict_keys d -> dict_keys (dict_set k v d) = dict_keys d.
Proof.
  induction d as [|[k' v'] d IH]; intros H; [inversion H|].
  cbn in *. destruct (String.eqb_spec k k') as [->|Hne]; [reflexivity|].
  cbn. f_equal. apply IH. apply elem_of_cons in H as [?|?]; [contradiction|assumption].
Qed.

Lemma dict_set_nodup k v d :
  NoDup (dict_keys d) -> NoDup (dict_keys (dict_set k v d)).
Proof.
  intros Hnd. destruct (decide (k ∈ dict_keys d)) as [Hin|Hout].
  - rewrite dict_set_keys_known by assumption. exact Hnd.
  - rewrite dict_set_keys_fresh by assumption. unfold dict_keys.
    rewrite map_app. cbn. apply NoDup_app. split; [exact Hnd|].
    split; [|apply NoDup_singleton].
    intros x Hx Hx'. apply list_elem_of_singleton in Hx' as ->. contradiction.
Qed.

Lemma dict_set_values (P : pyval -> Prop) k v d :
  P v -> Forall (fun kv => P (snd kv)) d ->
  Forall (fun kv => P (snd kv)) (dict_set k v d).
Proof.
  intros Hv. induction d as [|[k' v'] d IH]; intros H; cbn.
  - constructor; [exact Hv | constructor].
  - inversion H as [|? ? Hx Hd]; subst.
    destruct (String.eqb k k'); constructor; auto.
Qed.

Lemma fold_load_pair_invariant (P : pyval -> Prop) l : forall acc,
  Forall (fun kj => P (json_load (snd kj))) l ->
  NoDup (dict_keys acc) -> Forall (fun kv => P (snd kv)) acc ->
  NoDup (dict_keys (fold_left load_pair l acc)) /\
  Forall (fun kv => P (snd kv)) (fold_left load_pair l acc).
Proof.
  induction l as [|[k j] l IH]; intros acc Hl Hnd Hacc; cbn; [auto|].
  inversion Hl as [|? ? Hj Hl']; subst. apply IH; [assumption| |].
  - apply dict_set_nodup. assumption.
  - apply dict_set_values; assumption.
Qed.

Lemma fold_load_pair_dumps d : forall acc,
  NoDup (dict_keys acc ++ dict_keys d) ->
  fold_left load_pair (map (fun kv => (fst kv, json_dumps (snd kv))) d) acc
  = acc ++ map (fun kv => (fst kv, reloaded (snd kv))) d.
Proof.
  induction d as [|[k v] d IH]; intros acc Hnd; cbn.
  - rewrite app_nil_r. reflexivity.
  - unfold load_pair at 2. cbn [fst snd].
    assert (Hk : k ∉ dict_keys acc).
    { intros Hin. apply NoDup_app in Hnd as (_ & Hdis & _).
      apply (Hdis k Hin). cbn. left. }
    rewrite dict_set_keys_fresh by assumption.
    rewrite IH.
    + rewrite <- app_assoc. reflexivity.
    + unfold dict_keys in *. rewrite map_app, <- app_assoc. exact Hnd.
Qed.

(** What [json.load] returns is written and read back unchanged. *)
Lemma reloaded_json_load j : reloaded (json_load j) = json_load j.
Proof.
  induction j as [| | | | | l IH | l IH] using json_rect'; try reflexivity.
  - change (json_load (JArr l)) with (PList (map json_load l)).
    rewrite reloaded_list. f_equal.
    induction IH as [|x l Hx Hl IHl]; [reflexivity|]. cbn. rewrite Hx, IHl.
    reflexivity.
  - rewrite json_load_obj. fold load_pair.
    destruct (fold_load_pair_invariant (fun v => reloaded v = v) l [])
      as [Hnd Hv]; [exact IH | constructor | constructor |].
    set (d := fold_left load_pair l []) in *.
    unfold reloaded at 1. cbn [json_dumps]. rewrite json_load_obj. fold load_pair.
    rewrite fold_load_pair_dumps by exact Hnd. cbn [app]. f_equal.
    clear Hnd. induction Hv as [|[k v] d' Hx Hd IHd]; [reflexivity|].
    cbn in *. rewrite Hx, IHd. reflexivity.
Qed.

(** X1: on an instance holding a dictionary, [profile[key] = value] returns
    normally and touches nothing but that entry: the key then reads as the
    value, every other key reads as before, and the world is unchanged. *)
Theorem conn_setitem_then_getitem
    (key : string) (value : pyval) (s : st UGConnProfile) d :
  _profile (self s) = PDict d ->
  exists s',
    __setitem__ key value s = (Ok tt, s') /\
    world s' = world s /\
    __getitem__ (self s') key = Ok value /\
    (forall k, k <> key -> __getitem__ (self s') k = __getitem__ (self s) k).
Proof.
  intros Hd. destruct s as [[p] w]. cbn in Hd. subst p.
  exists (St (mk (PDict (dict_set key value d))) w).
  split; [reflexivity|]. split; [reflexivity|]. split.
  - unfold __getitem__, getitem. cbn. rewrite dict_get_set_eq. reflexivity.
  - intros k Hk. unfold __getitem__, getitem. cbn.
    rewrite dict_get_set_ne by assumption. reflexivity.
Qed.

(** X2: [save_profile] to a path that cannot be opened for writing raises
    the bare [Exception] and leaves the instance and the world as they
    were. *)
Theorem conn_save_unwritable (path : string) (s : st UGConnProfile) :
  path = "" \/ path ∈ no_write (world s) ->
  save_profile path s = (Raise Exception_, s).
Proof.
  intros H. unfold save_profile, try_except, bind, get_self, open_write, raise.
  cbn. destruct H as [-> | H].
  - reflexivity.
  - rewrite (bool_decide_eq_true_2 _ H). rewrite orb_true_r. reflexivity.
Qed.


Lemma conn_accepts_stdout out w path :
  conn_accepts (with_stdout out w) path = conn_accepts w path.
Proof. reflexivity. Qed.

(** X4: the instance [load_profile] leaves depends on the file alone, not on
    what the instance held; the call changes no file; and loading the same
    path again leaves the same instance. *)
Theorem conn_load_forgets_instance
    (path : string) (me1 me2 : UGConnProfile) (w : World) :
  self (snd (load_profile path (St me1 w)))
    = self (snd (load_profile path (St me2 w))) /\
  files (world (snd (load_profile path (St me1 w)))) = files w /\
  self (snd (load_profile path (snd (load_profile path (St me1 w)))))
    = self (snd (load_profile path (St me1 w))).
Proof.
  destruct (load_profile_eq path (St me1 w)) as (o1 & E1 & _).
  destruct (load_profile_eq path (St me2 w)) as (o2 & E2 & _).
  rewrite E1, E2. cbn [fst snd self world].
  split; [reflexivity|]. split; [reflexivity|].
  destruct (load_profile_eq path
              (St (mk (default _empty_profile (conn_accepts w path)))
                  (with_stdout o1 w))) as (o3 & E3 & _).
  rewrite E3. cbn [fst snd self world]. rewrite conn_accepts_stdout. reflexivity.
Qed.

(** X5: what [load_profile] prints.  Nothing when the file is accepted; the
    exception line when the file cannot be read or is not JSON; the mismatch
    line when the document is an object without [version] or with another
    one. *)
Theorem conn_load_reports (path : string) (s : st UGConnProfile) :
  (is_Some (conn_accepts (world s) path) ->
   stdout (world (snd (load_profile path s))) = stdout (world s)) /\
  ((exists e, read_file (world s) path = Raise e) \/
   read_file (world s) path = Ok NotJson ->
   stdout (world (snd (load_profile path s))) =
     stdout (world s) ++
     [Say "Exception happens when trying to load profile. Using default profile. "]) /\
  (forall j d,
     read_file (world s) path = Ok (Document j) ->
     json_load j = PDict d ->
     conn_accepts (world s) path = None ->
     stdout (world (snd (load_profile path s))) =
       stdout (world s) ++ [Say "Connection Profile version mismatch. "]).
Proof.
  split; [|split].
  - intros H. destruct (load_profile_eq path s) as (out & E & Ho).
    rewrite E. cbn. auto.
  - destruct s as [me w]. cbn [world].
    unfold load_profile, load_profile_try, try_except, bind, put_self, open_read,
      lift, print. cbn [self world fst snd].
    intros [[e H] | H]; rewrite H; reflexivity.
  - destruct s as [me w]. cbn [world]. intros j d Hr Hj Hn.
    unfold load_profile, load_profile_try, try_except, bind, put_self, open_read,
      lift, print, ret. cbn [self world fst snd].
    rewrite Hr. cbn [json_parse]. rewrite Hj.
    unfold conn_accepts in Hn. unfold read_file in Hr.
    destruct (bool_decide (path ∈ no_read w)); [discriminate|].
    destruct (file_at w path) as [t|]; [|discriminate].
    injection Hr as ->. rewrite Hj in Hn.
    unfold py_not_in, py_in, getitem. cbn [hashable obind].
    destruct (dict_get "version" d) as [ver|]; cbn.
    + destruct (py_eq ver (PInt version)); [discriminate|]. reflexivity.
    + reflexivity.
Qed.

(** X6: a profile that was loaded from a file, saved to a second path and
    loaded from there into a fresh instance is the same record, entry for
    entry. *)
Theorem conn_load_save_load (path path2 : string) (s : st UGConnProfile) v :
  conn_accepts (world s) path = Some v ->
  path2 <> "" ->
  path2 ∉ no_write (world s) ->
  path2 ∉ no_read (world s) ->
  exists s1 s2 s3,
    load_profile path s = (Ok tt, s1) /\
    self s1 = mk v /\
    save_profile path2 s1 = (Ok tt, s2) /\
    load_profile path2 (St __init__ (world s2)) = (Ok tt, s3) /\
    self s3 = mk v.
Proof.
  intros Ha Hne Hw Hr.
  assert (Hne' : String.eqb path2 "" = false)
    by (destruct (String.eqb_spec path2 ""); [contradiction | reflexivity]).
  pose proof (conn_load_accepted path s v Ha) as E1.
  set (w1 := with_files (<[path2 := Document (json_dumps v)]> (files (world s)))
               (world s)).
  exists (St (mk v) (world s)), (St (mk v) w1), (St (mk v) w1).
  split; [exact E1|]. split; [reflexivity|]. split.
  { unfold save_profile, try_except, bind, get_self, open_write. cbn.
    rewrite Hne', (bool_decide_eq_false_2 _ Hw). reflexivity. }
  split; [|reflexivity].
  apply conn_load_accepted. unfold conn_accepts in *. cbn [world].
  unfold w1 at 1. cbn [no_read with_files].
  rewrite (bool_decide_eq_false_2 _ Hr).
  unfold file_at at 1. rewrite Hne'. unfold w1. cbn [files with_files].
  rewrite lookup_insert_eq.
  destruct (bool_decide (path ∈ no_read (world s))); [discriminate|].
  destruct (file_at (world s) path) as [[|j]|]; try discriminate.
  destruct (json_load j) as [| | | | | | |d] eqn:Ej; try discriminate.
  destruct (dict_get "version" d) as [ver|] eqn:Ev; [|discriminate].
  destruct (py_eq ver (PInt version)) eqn:Ep; [|discriminate].
  injection Ha as <-.
  change (json_load (json_dumps (PDict d))) with (reloaded (PDict d)).
  rewrite <- Ej, reloaded_json_load, Ej, Ev, Ep. reflexivity.
Qed.

End ConnProfileMore.

Lemma conn_setitem_then_getitem_witness :
  exists s',
    ConnProfile.__setitem__ "start_vnc_srv" (PBool true)
      (St ConnProfile.__init__ quiet_world) = (Ok tt, s') /\
    ConnProfile.__getitem__ (self s') "start_vnc_srv" = Ok (PBool true) /\
    ConnProfile.__getitem__ (self s') "servers" = Ok (PList []).
Proof.
  destruct (conn_setitem_then_getitem "start_vnc_srv" (PBool true)
              (St ConnProfile.__init__ quiet_world)
              [("version", PInt 1); ("servers", PList []);
               ("start_vnc_srv", PBool false); ("forwarding_ports", PList [])])
    as (s' & H1 & _ & H3 & H4).
  - reflexivity.
  - exists s'. split; [exact H1|]. split; [exact H3|].
    rewrite (H4 "servers"); [reflexivity | discriminate].
Defined.

Lemma conn_save_unwritable_witness :
  ConnProfile.save_profile "locked.json" (St ecf_profile locked_world)
    = (Raise Exception_, St ecf_profile locked_world).
Proof.
  apply (conn_save_unwritable "locked.json" (St ecf_profile locked_world)).
  right. vm_compute. reflexivity.
Defined.


Lemma conn_load_reports_witness :
  stdout (world (snd (ConnProfile.load_profile "eecg.json" (St stale_profile future_file))))
    = [Say "Connection Profile version mismatch. "] /\
  stdout (world (snd (ConnProfile.load_profile "eecg.json" (St stale_profile eecg_file))))
    = [] /\
  stdout (world (snd (ConnProfile.load_profile "eecg.json" (St stale_profile quiet_world))))
    = [Say "Exception happens when trying to load profile. Using default profile. "].
Proof.
  split; [|split].
  - refine (proj2 (proj2 (conn_load_reports "eecg.json" (St stale_profile future_file)))
              _ _ _ _ _); reflexivity.
  - apply (proj1 (conn_load_reports "eecg.json" (St stale_profile eecg_file))).
    eexists. reflexivity.
  - apply (proj1 (proj2 (conn_load_reports "eecg.json" (St stale_profile quiet_world)))).
    left. eexists. reflexivity.
Defined.

Lemma conn_load_save_load_witness :
  exists s1 s2 s3,
    ConnProfile.load_profile "eecg.json" (St stale_profile eecg_file) = (Ok tt, s1) /\
    ConnProfile.save_profile "copy.json" s1 = (Ok tt, s2) /\
    ConnProfile.load_profile "copy.json" (St ConnProfile.__init__ (world s2))
      = (Ok tt, s3) /\
    self s3 = ConnProfile.mk (json_load eecg_document).
Proof.
  destruct (conn_load_save_load "eecg.json" "copy.json" (St stale_profile eecg_file)
              (json_load eecg_document))
    as (s1 & s2 & s3 & H1 & _ & H3 & H4 & H5).
  - reflexivity.
  - discriminate.
  - vm_compute. intros H. discriminate H.
  - vm_compute. intros H. discriminate H.
  - exists s1, s2, s3. auto.
Defined.

(** ** User profile store *)

Section UserProfileMore.

Import UserProfile.

Lemma dict_set_set k v1 v2 d : dict_set k v2 (dict_set k v1 d) = dict_set k v2 d.
Proof.
  induction d as [|[k' v'] d IH]; cbn.
  - rewrite String.eqb_refl. reflexivity.
  - destruct (String.eqb k k') eqn:E; cbn; rewrite E; [reflexivity|].
    rewrite IH. reflexivity.
Qed.

(** X7: [add_new_session] with a catalog name the profile does not know
    raises [ValueError] and leaves the profile and the world as they were. *)
Theorem add_new_session_unknown_catalog
    (name conn_profile : string) (s : st UGUserProfile) :
  _conn_profiles (self s) !! conn_profile = None ->
  add_new_session name conn_profile s = (Raise ValueError, s).
Proof.
  intros H. unfold add_new_session, bind, get_self, raise. cbn.
  rewrite H. rewrite bool_decide_eq_false_2; [reflexivity|].
  intros [? ?]; discriminate.
Qed.

(** X8: [add_new_session] with a known catalog returns normally and appends
    one session, holding the name, the catalog name and four empty strings,
    after the sessions already there; every other entry of the profile (so
    [last_session] too), the catalogs and the world are unchanged. *)
Theorem add_new_session_appends
    (name conn_profile : string) (s : st UGUserProfile) d l :
  _profile (self s) = PDict d ->
  dict_get "sessions" d = Some (PList l) ->
  is_Some (_conn_profiles (self s) !! conn_profile) ->
  exists s',
    add_new_session name conn_profile s = (Ok tt, s') /\
    getitem (_profile (self s')) "sessions" =
      Ok (PList (l ++ [PDict [("name", PStr name);
                              ("conn_profile", PStr conn_profile);
                              ("last_server", PStr "");
                              ("username", PStr "");
                              ("private_key_path", PStr "");
                              ("vnc_passwd_path", PStr "")]])) /\
    (forall k, k <> "sessions" ->
       getitem (_profile (self s')) k = getitem (_profile (self s)) k) /\
    _conn_profiles (self s') = _conn_profiles (self s) /\
    world s' = world s.
Proof.
  intros Hd Hs Hc. destruct s as [[p cps] w]. cbn in Hd, Hc. subst p.
  eexists. split.
  - unfold add_new_session, bind, get_self. cbn [self _conn_profiles].
    rewrite (bool_decide_eq_true_2 _ Hc). cbn [negb].
    unfold sessions_append. erewrite bind_ok by (apply getitem_profile; exact Hs).
    apply setitem_profile.
  - cbn. split; [|split; [|auto]].
    + unfold getitem. rewrite dict_get_set_eq. reflexivity.
    + intros k Hk. unfold getitem. rewrite dict_get_set_ne by assumption.
      reflexivity.
Qed.

(** X9: [change_viewer] with a viewer that is neither ["TigerVNC"] nor
    ["RealVNC"] raises [NotImplementedError] and changes nothing. *)
Theorem change_viewer_unsupported (viewer : string) (s : st UGUserProfile) :
  viewer <> "TigerVNC" -> viewer <> "RealVNC" ->
  change_viewer viewer s = (Raise NotImplementedError, s).
Proof.
  intros H1 H2. unfold change_viewer, bind, lift, raise, py_not_in, py_in.
  unfold _supported_viewers. cbn [obind existsb py_eq].
  assert (E1 : String.eqb "TigerVNC" viewer = false)
    by (apply String.eqb_neq; congruence).
  assert (E2 : String.eqb "RealVNC" viewer = false)
    by (apply String.eqb_neq; congruence).
  rewrite E1, E2. reflexivity.
Qed.

(** X10: [change_viewer] with one of the two supported viewers returns
    normally and stores it under ["viewer"]; the other entries of the
    profile, the catalogs and the world are unchanged. *)
Theorem change_viewer_supported (viewer : string) (s : st UGUserProfile) d :
  viewer = "TigerVNC" \/ viewer = "RealVNC" ->
  _profile (self s) = PDict d ->
  exists s',
    change_viewer viewer s = (Ok tt, s') /\
    getitem (_profile (self s')) "viewer" = Ok (PStr viewer) /\
    (forall k, k <> "viewer" ->
       getitem (_profile (self s')) k = getitem (_profile (self s)) k) /\
    _conn_profiles (self s') = _conn_profiles (self s) /\
    world s' = world s.
Proof.
  intros Hv Hd. destruct s as [[p cps] w]. cbn in Hd. subst p.
  exists (St (mk (PDict (dict_set "viewer" (PStr viewer) d)) cps) w). split.
  - destruct Hv as [-> | ->]; reflexivity.
  - cbn. split; [|split; [|auto]].
    + unfold getitem. rewrite dict_get_set_eq. reflexivity.
    + intros k Hk. unfold getitem. rewrite dict_get_set_ne by assumption.
      reflexivity.
Qed.

(** X11: [modify_session] with a negative index, or with an index at or past
    the number of sessions, raises [IndexError] and changes nothing: neither
    [last_session] nor any session. *)
Theorem modify_session_index_out_of_range (idx : Z) (username last_server : string)
    (pk vp : option string) (s : st UGUserProfile) :
  (idx < 0)%Z \/
  (exists l, getitem (_profile (self s)) "sessions" = Ok (PList l) /\
             (Z.of_nat (length l) <= idx)%Z) ->
  modify_session idx username last_server pk vp s = (Raise IndexError, s).
Proof.
  intros H. unfold modify_session.
  destruct (Z.ltb_spec idx 0) as [Hneg|Hpos].
  - reflexivity.
  - destruct H as [H | (l & Hl & Hlen)]; [lia|].
    unfold __getitem__, bind, get_self, lift, ret, raise. cbn [self world].
    rewrite Hl. cbn [py_len].
    destruct (Z.leb_spec (Z.of_nat (length l)) idx); [reflexivity | lia].
Qed.

(** A second assignment through the alias [session] replaces the element
    the first one left. *)
Lemma session_setitem_again idx k v d l sd cps w :
  (0 <= idx)%Z ->
  (Z.to_nat idx < length l)%nat ->
  session_setitem idx k v
    (St (mk (PDict (dict_set "sessions"
                      (PList (<[Z.to_nat idx := PDict sd]> l)) d)) cps) w) =
  (Ok tt,
   St (mk (PDict (dict_set "sessions"
                    (PList (<[Z.to_nat idx := PDict (dict_set k v sd)]> l)) d))
          cps) w).
Proof.
  intros H0 Hlt.
  erewrite session_setitem_list;
    [| apply dict_get_set_eq | exact H0
     | apply list_lookup_insert_eq; exact Hlt].
  rewrite dict_set_set, list_insert_insert_eq. reflexivity.
Qed.

(** X12: [modify_session] with a valid index and a server of the session's
    catalog returns normally.  It leaves [last_session] at the index and, at
    that index, the session with the new username and server and with each
    path overwritten only if it was supplied; the other sessions, the other
    entries of the profile, the catalogs and the world are unchanged. *)
Theorem modify_session_updates_selected (s : st UGUserProfile)
    (idx : Z) (username last_server : string) (pk vp : option string)
    d l sd name c servers :
  _profile (self s) = PDict d ->
  dict_get "sessions" d = Some (PList l) ->
  (0 <= idx)%Z ->
  l !! Z.to_nat idx = Some (PDict sd) ->
  dict_get "conn_profile" sd = Some (PStr name) ->
  _conn_profiles (self s) !! name = Some c ->
  ConnProfile.__getitem__ c "servers" = Ok servers ->
  py_in (PStr last_server) servers = Ok true ->
  modify_session idx username last_server pk vp s =
  (Ok tt,
   St (mk (PDict
             (dict_set "sessions"
                (PList (<[Z.to_nat idx :=
                            PDict (modified_session sd username last_server pk vp)]> l))
                (dict_set "last_session" (PInt idx) d)))
          (_conn_profiles (self s)))
      (world s)).
Proof.
  intros Hp Hs H0 Hl Hc Hcat Hsrv Hin.
  destruct s as [[p cps] w]. cbn in Hp, Hcat. subst p. cbn [self world _conn_profiles].
  pose proof (lookup_lt_Some _ _ _ Hl) as Hlt.
  set (d1 := dict_set "last_session" (PInt idx) d).
  assert (Hs1 : dict_get "sessions" d1 = Some (PList l))
    by (unfold d1; rewrite dict_get_set_ne by discriminate; exact Hs).
  set (sd1 := dict_set "username" (PStr username) sd).
  assert (Hc1 : dict_get "conn_profile" sd1 = Some (PStr name))
    by (unfold sd1; rewrite dict_get_set_ne by discriminate; exact Hc).
  unfold modify_session.
  destruct (Z.ltb_spec idx 0); [lia|].
  erewrite bind_ok; cycle 1.
  { erewrite bind_ok by (apply getitem_profile; exact Hs).
    unfold lift at 1. erewrite bind_ok by reflexivity. reflexivity. }
  destruct (Z.leb_spec (Z.of_nat (length l)) idx); [lia|].
  erewrite bind_ok by apply setitem_profile. fold d1.
  erewrite bind_ok by (apply getitem_profile; exact Hs1).
  unfold lift at 1. erewrite bind_ok
    by (rewrite (py_index_list _ _ _ H0 Hl); reflexivity).
  erewrite bind_ok by (apply session_setitem_list; eassumption). fold sd1.
  erewrite bind_ok; cycle 1.
  { eapply session_getitem_list;
      [apply dict_get_set_eq | exact H0
      | apply list_lookup_insert_eq; exact Hlt | exact Hc1]. }
  erewrite bind_ok by reflexivity. cbn [self _conn_profiles].
  unfold lift at 1. erewrite bind_ok
    by (rewrite (conn_profiles_getitem_known _ _ _ Hcat); reflexivity).
  unfold lift at 1. erewrite bind_ok by (rewrite Hsrv; reflexivity).
  unfold lift at 1. erewrite bind_ok
    by (unfold py_not_in; rewrite Hin; reflexivity).
  cbn [negb].
  erewrite bind_ok by (apply session_setitem_again; assumption).
  unfold modified_session. fold sd1.
  destruct pk as [p|], vp as [q|].
  - erewrite bind_ok by (apply session_setitem_again; assumption).
    apply session_setitem_again; assumption.
  - erewrite bind_ok by (apply session_setitem_again; assumption). reflexivity.
  - erewrite bind_ok by reflexivity. apply session_setitem_again; assumption.
  - erewrite bind_ok by reflexivity. reflexivity.
Qed.


Lemma length_string_chars s : length (string_chars s) = String.length s.
Proof.
  unfold string_chars. rewrite length_map.
  induction s as [|c s IH]; [reflexivity|]. cbn. rewrite IH. reflexivity.
Qed.

Lemma py_len_iter c n todo :
  py_len c = Ok n -> py_iter c = Ok todo -> n = Z.of_nat (length todo).
Proof.
  destruct c; cbn; intros [= <-] [= <-]; try reflexivity.
  - rewrite length_string_chars. reflexivity.
  - unfold dict_keys. rewrite !length_map. reflexivity.
Qed.

Lemma supported_viewer_is_string viewer :
  py_in viewer _supported_viewers = Ok true ->
  exists name, viewer = PStr name /\ (name = "TigerVNC" \/ name = "RealVNC").
Proof.
  unfold py_in, _supported_viewers.
  destruct viewer as [| | | | name | | |]; cbn [existsb py_eq orb];
    try discriminate.
  intros H. exists name. split; [reflexivity|]. revert H.
  destruct (String.eqb_spec "TigerVNC" name); [left; congruence|].
  destruct (String.eqb_spec "RealVNC" name); [right; congruence|].
  cbn [orb]. discriminate.
Qed.

(** X14: whatever the file, the profile [load_profile] leaves is the default
    or has one of the two supported viewers, the sessions in a list, and an
    integer [last_session], if it is one, that is a position of that
    list. *)
Theorem user_load_keeps_selection_in_range (path : string) (s : st UGUserProfile) :
  _profile (self (snd (load_profile path s))) = _empty_user_profile \/
  exists viewer idx loaded,
    _profile (self (snd (load_profile path s)))
      = profile_with (PStr viewer) idx loaded /\
    (viewer = "TigerVNC" \/ viewer = "RealVNC") /\
    (forall z, idx = PInt z -> (0 <= z < Z.of_nat (length loaded))%Z).
Proof.
  rewrite load_profile_unfold.
  destruct (load_profile_try path (load_start s)) as [[[]|e] s'] eqn:E;
    [|left; reflexivity].
  right. cbn [snd].
  apply load_profile_try_ok in E
    as (v & viewer & idx & todo & [_ _ [Hvw Hin]
          (Hidx & Hlt & ss & n & Hss & Hlen & Hge & Hit)] & Hloop).
  apply load_sessions_ok in Hloop as (loaded & HF & ->).
  apply supported_viewer_is_string in Hin as (name & -> & Hname).
  exists name, idx, loaded. split; [reflexivity|]. split; [exact Hname|].
  intros z ->. apply py_lt_int_false in Hlt. apply py_ge_int_false in Hge.
  rewrite (py_len_iter _ _ _ Hlen Hit) in Hge.
  rewrite (Forall2_length _ _ _ HF) in Hge. lia.
Qed.

(** *** Views *)

Lemma queried_session_view me session view :
  queried_session me session = Ok view -> session_view me session view.
Proof.
  unfold queried_session. intros H.
  destruct (getitem session "name") as [name|] eqn:E1; [|discriminate].
  destruct (getitem session "conn_profile") as [cp|] eqn:E2; [|discriminate].
  cbn [obind] in H.
  destruct (conn_profiles_getitem (_conn_profiles me) cp) as [c|] eqn:E3;
    [|discriminate].
  cbn [obind] in H.
  destruct (ConnProfile.__getitem__ c "servers") as [servers|] eqn:E4;
    [|discriminate].
  destruct (getitem session "last_server") as [last|] eqn:E5; [|discriminate].
  destruct (getitem session "username") as [username|] eqn:E6; [|discriminate].
  destruct (getitem session "private_key_path") as [key|] eqn:E7; [|discriminate].
  cbn [obind] in H.
  destruct (ConnProfile.__getitem__ c "vnc_manual") as [flag|] eqn:E8;
    [|discriminate].
  destruct (getitem session "vnc_passwd_path") as [vnc|] eqn:E9; [|discriminate].
  cbn [obind] in H. injection H as <-.
  exists name, cp, c, servers, last, username, key, flag, vnc.
  repeat (split; [assumption || reflexivity|]). reflexivity.
Qed.

Lemma query_loop_views me todo : forall acc l,
  query_loop me todo acc = Ok l ->
  exists vs, l = acc ++ vs /\
    Forall2 (fun session view => queried_session me session = Ok view) todo vs.
Proof.
  induction todo as [|session todo IH]; intros acc l H; cbn in H.
  - injection H as <-. exists []. rewrite app_nil_r. split; [reflexivity|constructor].
  - destruct (queried_session me session) as [q|] eqn:E; [|discriminate].
    cbn [obind] in H. apply IH in H as (vs & -> & HF).
    exists (q :: vs). rewrite <- app_assoc. split; [reflexivity|].
    constructor; assumption.
Qed.

(** X16: when [query_sessions] returns, it returns a list with one view per
    session, in the order of the sessions; each view holds the session's
    name, last server and username, the servers and the ["vnc_manual"] entry
    of its catalog, and two booleans telling whether the private key path
    and the VNC password path differ from the empty string. *)
Theorem query_sessions_views (me : UGUserProfile) (result : pyval) :
  query_sessions me = Ok result ->
  exists sessions todo views,
    getitem (_profile me) "sessions" = Ok sessions /\
    py_iter sessions = Ok todo /\
    result = PList views /\
    Forall2 (session_view me) todo views.
Proof.
  unfold query_sessions. intros H.
  destruct (getitem (_profile me) "sessions") as [sessions|] eqn:Es;
    [|discriminate].
  cbn [obind] in H.
  destruct (py_iter sessions) as [todo|] eqn:Ei; [|discriminate].
  cbn [obind] in H.
  destruct (query_loop me todo []) as [l|] eqn:E; [|discriminate].
  injection H as <-. apply query_loop_views in E as (vs & -> & HF).
  exists sessions, todo, vs. split; [reflexivity|]. split; [exact Ei|].
  split; [reflexivity|].
  eapply Forall2_impl; [exact HF|]. intros session view Hq.
  apply queried_session_view. exact Hq.
Qed.

Lemma queryable_queried me session :
  queryable me session -> exists view, queried_session me session = Ok view.
Proof.
  intros (sd & name & cd & -> & [v1 H1] & Hc & [v2 H2] & [v3 H3] & [v4 H4]
            & [v5 H5] & Hcat & [v6 H6] & [v7 H7]).
  assert (G : forall k v, dict_get k sd = Some v -> getitem (PDict sd) k = Ok v)
    by (intros k v H; unfold getitem; rewrite H; reflexivity).
  unfold queried_session.
  rewrite (G _ _ H1), (G _ _ Hc), (G _ _ H2), (G _ _ H3), (G _ _ H4), (G _ _ H5).
  cbn [obind]. rewrite (conn_profiles_getitem_known _ _ _ Hcat). cbn [obind].
  unfold ConnProfile.__getitem__, getitem. cbn [ConnProfile._profile].
  rewrite H6, H7. cbn [obind]. eexists. reflexivity.
Qed.

Lemma query_loop_returns me todo :
  Forall (queryable me) todo ->
  forall acc, exists vs,
    query_loop me todo acc = Ok (acc ++ vs) /\ length vs = length todo.
Proof.
  induction 1 as [|session todo Hq _ IH]; intros acc; cbn.
  - exists []. rewrite app_nil_r. split; reflexivity.
  - destruct (queryable_queried _ _ Hq) as [view ->]. cbn [obind].
    destruct (IH (acc ++ [view])) as (vs & -> & Hlen).
    exists (view :: vs). rewrite <- app_assoc. split; [reflexivity|].
    cbn. rewrite Hlen. reflexivity.
Qed.

(** X17: [query_sessions] returns normally, with as many views as there are
    sessions, when the sessions are a list of dictionaries that each hold
    the six entries and name a catalog holding both ["servers"] and
    ["vnc_manual"]; in particular it returns the empty list for a profile
    without sessions, whatever the catalogs. *)
Theorem query_sessions_returns (me : UGUserProfile) (ss : list pyval) :
  getitem (_profile me) "sessions" = Ok (PList ss) ->
  Forall (queryable me) ss ->
  exists views,
    query_sessions me = Ok (PList views) /\ length views = length ss.
Proof.
  intros Hs Hq. unfold query_sessions. rewrite Hs. cbn [obind py_iter].
  destruct (query_loop_returns me ss Hq []) as (vs & -> & Hlen).
  exists vs. split; [reflexivity | exact Hlen].
Qed.


(** *** What a load depends on *)

Lemma blind_ret {T A} (a : A) : stdout_blind (@ret (st T) A a).
Proof. intros me w o. reflexivity. Qed.

Lemma blind_raise {T A} e : stdout_blind (@raise (st T) A e).
Proof. intros me w o. reflexivity. Qed.

Lemma blind_lift {T A} (x : outcome A) : stdout_blind (@lift (st T) A x).
Proof. intros me w o. reflexivity. Qed.

Lemma blind_bind {T A B} (m : M (st T) A) (k : A -> M (st T) B) :
  stdout_blind m -> (forall a, stdout_blind (k a)) -> stdout_blind (bind m k).
Proof.
  intros Hm Hk me w o. unfold bind. rewrite Hm.
  destruct (m (St me w)) as [[a|e] [me' w']]; cbn [self world].
  - apply Hk.
  - reflexivity.
Qed.

Lemma blind_if {T A} (b : bool) (m1 m2 : M (st T) A) :
  stdout_blind m1 -> stdout_blind m2 -> stdout_blind (if b then m1 else m2).
Proof. destruct b; auto. Qed.

Lemma blind_open_read {T} path : stdout_blind (@open_read T path).
Proof. intros me w o. reflexivity. Qed.

Lemma blind_setitem k v : stdout_blind (__setitem__ k v).
Proof.
  intros me w o. unfold __setitem__, put_profile, bind, get_self, put_self, lift.
  cbn [self world]. destruct (setitem (_profile me) k v); reflexivity.
Qed.

Lemma blind_getitem k : stdout_blind (__getitem__ k).
Proof.
  intros me w o. unfold __getitem__, bind, get_self, lift.
  cbn [self world]. destruct (getitem (_profile me) k); reflexivity.
Qed.

Lemma blind_sessions_append x : stdout_blind (sessions_append x).
Proof.
  unfold sessions_append. apply blind_bind; [apply blind_getitem|].
  intros [| | | | | l | |]; try apply blind_raise. apply blind_setitem.
Qed.

Lemma blind_load_sessions todo : stdout_blind (load_sessions todo).
Proof.
  induction todo as [|raw todo IH]; [apply blind_ret|].
  cbn [load_sessions]. apply blind_bind.
  - intros me w o. reflexivity.
  - intros l. apply blind_bind; [apply blind_sessions_append | intros _; exact IH].
Qed.

(** The [try] block of [load_profile] never looks at the printed lines. *)
Lemma blind_load_profile_try path : stdout_blind (load_profile_try path).
Proof.
  unfold load_profile_try.
  repeat first
    [ apply blind_load_sessions
    | apply blind_setitem
    | apply blind_open_read
    | apply blind_lift
    | apply blind_ret
    | apply blind_raise
    | apply blind_if
    | apply blind_bind; [|intros ?] ].
Qed.

Local Arguments py_not_in : simpl never.
Local Arguments py_eq : simpl never.
Local Arguments py_lt_int : simpl never.
Local Arguments py_ge_int : simpl never.
Local Arguments py_len : simpl never.
Local Arguments py_iter : simpl never.
Local Arguments getitem : simpl never.
Local Arguments json_parse : simpl never.
Local Arguments read_file : simpl never.
Local Arguments load_sessions : simpl never.

Lemma load_sessions_world todo : forall (s : st UGUserProfile) r s',
  load_sessions todo s = (r, s') -> world s' = world s.
Proof.
  induction todo as [|raw todo IH]; intros s r s' H.
  - cbn in H. injection H as _ <-. reflexivity.
  - rewrite load_sessions_cons in H.
    destruct (load_session _ _ raw); [|injection H as _ <-; reflexivity].
    unfold sessions_append, __getitem__ in H.
    run_all H; try (injection H as _ <-; reflexivity).
    apply IH in H. exact H.
Qed.

(** The [try] block of [load_profile] leaves the world as it is. *)
Lemma load_profile_try_world path (s : st UGUserProfile) r s' :
  load_profile_try path s = (r, s') -> world s' = world s.
Proof.
  intros H. unfold load_profile_try in H.
  run_all H; try (injection H as _ <-; reflexivity).
  apply load_sessions_world in H. exact H.
Qed.

(** [load_profile] as a function of the catalogs and the world alone. *)
Lemma load_profile_from_base path p cps w o :
  load_profile path (St (mk p cps) (with_stdout o w)) =
  match load_profile_try path (St (mk _empty_user_profile cps) w) with
  | (Ok a, s') =>
      (Ok a, St (self s') (with_stdout (o ++ [Say "UGUserProfile loading..."]) w))
  | (Raise e, s') =>
      (Ok tt,
       St (mk _empty_user_profile cps)
          (with_stdout
             ((o ++ [Say "UGUserProfile loading..."]) ++
              [SayExn "UGUserProfile: load_profile:" e;
               Say "Unable to load the user profile. Using the default profile instead."])
             w))
  end.
Proof.
  rewrite load_profile_unfold.
  change (load_start (St (mk p cps) (with_stdout o w)))
    with (St (mk _empty_user_profile cps)
            (with_stdout (o ++ [Say "UGUserProfile loading..."]) w)).
  rewrite blind_load_profile_try.
  destruct (load_profile_try path (St (mk _empty_user_profile cps) w))
    as [[a|e] s'] eqn:E;
    pose proof (load_profile_try_world _ _ _ _ E) as Hw;
    pose proof (load_profile_try_catalogs _ _ _ _ E) as Hc;
    cbn [self world _conn_profiles] in *; rewrite Hw.
  - reflexivity.
  - rewrite Hc. rewrite <- app_assoc. reflexivity.
Qed.

Lemma load_profile_from_base_plain path p cps w :
  load_profile path (St (mk p cps) w) =
  match load_profile_try path (St (mk _empty_user_profile cps) w) with
  | (Ok a, s') =>
      (Ok a,
       St (self s') (with_stdout (stdout w ++ [Say "UGUserProfile loading..."]) w))
  | (Raise e, s') =>
      (Ok tt,
       St (mk _empty_user_profile cps)
          (with_stdout
             ((stdout w ++ [Say "UGUserProfile loading..."]) ++
              [SayExn "UGUserProfile: load_profile:" e;
               Say "Unable to load the user profile. Using the default profile instead."])
             w))
  end.
Proof.
  pose proof (load_profile_from_base path p cps w (stdout w)) as H.
  rewrite with_stdout_same in H. exact H.
Qed.

(** X15: the outcome and the profile [load_profile] leaves depend on the
    path, the catalogs, the files and the open descriptors only: neither on
    the profile held before nor on the lines printed before.  The call
    changes no file, so loading the same path a second time leaves the
    profile the first load left. *)
Theorem user_load_depends_on_files_only
    (path : string) (p1 p2 : pyval) cps (w : World) (o : list line) :
  fst (load_profile path (St (mk p1 cps) (with_stdout o w)))
    = fst (load_profile path (St (mk p2 cps) w)) /\
  self (snd (load_profile path (St (mk p1 cps) (with_stdout o w))))
    = self (snd (load_profile path (St (mk p2 cps) w))) /\
  files (world (snd (load_profile path (St (mk p2 cps) w)))) = files w /\
  self (snd (load_profile path (snd (load_profile path (St (mk p2 cps) w)))))
    = self (snd (load_profile path (St (mk p2 cps) w))).
Proof.
  rewrite load_profile_from_base, !load_profile_from_base_plain.
  destruct (load_profile_try path (St (mk _empty_user_profile cps) w))
    as [[[]|e] [[p' cps'] w']] eqn:E;
    pose proof (load_profile_try_catalogs _ _ _ _ E) as Hc;
    cbn [self world _conn_profiles fst snd] in *; subst cps'.
  - repeat split; try reflexivity.
    rewrite load_profile_from_base, E. reflexivity.
  - repeat split; try reflexivity.
    rewrite load_profile_from_base, E. reflexivity.
Qed.

(** *** Round trip *)

Lemma settled_reloaded cps w session :
  settled_session cps w session -> reloaded session = session.
Proof.
  intros (name & cp & last & username & key & vnc & cd & srv & -> & _).
  reflexivity.
Qed.

Lemma settled_reconcile cps w w1 session :
  settled_session cps w session ->
  (forall p, is_Some (file_at w p) -> is_Some (file_at w1 p)) ->
  reconcile cps w1 session = Ok session.
Proof.
  intros (name & cp & last & username & key & vnc & cd & srv & -> & Hcat & Hsrv
            & Hlast & Hpaths) Hmono.
  unfold reconcile, load_session.
  change (getitem (PDict _) "name") with (@Ok pyval (PStr name)).
  change (getitem (PDict _) "conn_profile") with (@Ok pyval (PStr cp)).
  change (getitem (PDict _) "last_server") with (@Ok pyval (PStr last)).
  change (getitem (PDict _) "username") with (@Ok pyval (PStr username)).
  change (getitem (PDict _) "private_key_path") with (@Ok pyval (PStr key)).
  change (getitem (PDict _) "vnc_passwd_path") with (@Ok pyval (PStr vnc)).
  cbn [obind _conn_profiles].
  rewrite (conn_profiles_getitem_known _ _ _ Hcat). cbn [obind].
  unfold ConnProfile.__getitem__, getitem at 1. cbn [ConnProfile._profile].
  rewrite Hsrv. cbn [obind].
  assert (Hempty : forall w0, bool_decide (is_Some (file_at w0 "")) = false).
  { intros w0. apply bool_decide_eq_false_2. intros [? H]. discriminate H. }
  assert (Hl : exists b, py_not_in (PStr last) (PList srv) = Ok b /\
                 (b = true -> last = "")).
  { unfold py_not_in. destruct Hlast as [-> | Hin].
    - unfold py_in. cbn [obind]. eexists. split; [reflexivity|]. auto.
    - rewrite Hin. cbn [obind negb]. exists false. split; [reflexivity|].
      discriminate. }
  destruct Hl as (b & -> & Hb). cbn [obind].
  assert (Hls : (if b then Ok (dict_set "last_server" (PStr "")
                                 (dict_set "conn_profile" (PStr cp)
                                    (dict_set "name" (PStr name) _empty_session)))
                 else Ok (dict_set "last_server" (PStr last)
                            (dict_set "conn_profile" (PStr cp)
                               (dict_set "name" (PStr name) _empty_session))))
                = Ok (dict_set "last_server" (PStr last)
                        (dict_set "conn_profile" (PStr cp)
                           (dict_set "name" (PStr name) _empty_session)))).
  { destruct b; [rewrite (Hb eq_refl)|]; reflexivity. }
  rewrite Hls. cbn [obind os_path_exists].
  destruct Hpaths as [[-> ->] | [Hk Hv]].
  - rewrite Hempty. reflexivity.
  - rewrite (bool_decide_eq_true_2 _ (Hmono _ Hk)). cbn [negb obind].
    destruct Hv as [-> | Hv].
    + rewrite Hempty. reflexivity.
    + rewrite (bool_decide_eq_true_2 _ (Hmono _ Hv)). reflexivity.
Qed.

Lemma sessions_append_profile_with x viewer idx held cps w :
  sessions_append x (St (mk (profile_with viewer idx held) cps) w) =
  (Ok tt, St (mk (profile_with viewer idx (held ++ [x])) cps) w).
Proof. reflexivity. Qed.

Lemma load_sessions_settled cps w todo : forall viewer idx held,
  Forall (fun raw => reconcile cps w raw = Ok raw) todo ->
  load_sessions todo (St (mk (profile_with viewer idx held) cps) w) =
  (Ok tt, St (mk (profile_with viewer idx (held ++ todo)) cps) w).
Proof.
  induction todo as [|raw todo IH]; intros viewer idx held H.
  - rewrite app_nil_r. reflexivity.
  - inversion H as [|? ? Hr Ht]; subst.
    rewrite load_sessions_cons. cbn [self world].
    rewrite (load_session_same_catalogs _ _empty_user_profile).
    fold (reconcile cps w raw). rewrite Hr.
    erewrite bind_ok by apply sessions_append_profile_with.
    rewrite (IH viewer idx (held ++ [raw]) Ht). rewrite <- app_assoc. reflexivity.
Qed.

Lemma reloaded_dict d :
  NoDup (dict_keys d) ->
  reloaded (PDict d) = PDict (map (fun kv => (fst kv, reloaded (snd kv))) d).
Proof.
  intros Hnd. unfold reloaded at 1. cbn [json_dumps]. rewrite json_load_obj.
  fold load_pair. rewrite fold_load_pair_dumps by exact Hnd. reflexivity.
Qed.

Lemma reloaded_profile_with cps w viewer idx sessions :
  Forall (settled_session cps w) sessions ->
  reloaded (profile_with (PStr viewer) (PInt idx) sessions)
  = profile_with (PStr viewer) (PInt idx) sessions.
Proof.
  intros H. unfold profile_with. rewrite reloaded_dict.
  - cbn [map fst snd]. rewrite reloaded_list.
    assert (map reloaded sessions = sessions) as ->.
    { induction H as [|x l Hx Hl IH]; [reflexivity|]. cbn.
      rewrite (settled_reloaded _ _ _ Hx), IH. reflexivity. }
    reflexivity.
  - apply (bool_decide_unpack _). vm_compute. exact I.
Qed.

(** The [try] block of [load_profile] on a file that holds a settled
    profile. *)
Lemma load_profile_try_settled path cps w viewer idx sessions :
  read_file w path
    = Ok (Document (json_dumps (profile_with (PStr viewer) (PInt idx) sessions))) ->
  viewer = "TigerVNC" \/ viewer = "RealVNC" ->
  (0 <= idx < Z.of_nat (length sessions))%Z ->
  Forall (settled_session cps w) sessions ->
  load_profile_try path (St (mk _empty_user_profile cps) w) =
  (Ok tt, St (mk (profile_with (PStr viewer) (PInt idx) sessions) cps) w).
Proof.
  intros Hread Hviewer Hidx Hs.
  pose proof (reloaded_profile_with cps w viewer idx sessions Hs) as Hrel.
  unfold reloaded in Hrel.
  unfold load_profile_try.
  erewrite bind_ok by (unfold open_read; cbn [world]; rewrite Hread; reflexivity).
  unfold lift at 1.
  erewrite bind_ok by (unfold json_parse; rewrite Hrel; reflexivity).
  unfold lift at 1. erewrite bind_ok by reflexivity.
  erewrite bind_ok by reflexivity.
  change (negb (py_eq (PInt version) (PInt version))) with false. cbn iota.
  unfold lift at 1. erewrite bind_ok by reflexivity.
  unfold lift at 1.
  erewrite (bind_ok _ _ _ false)
    by (destruct Hviewer as [-> | ->]; reflexivity).
  cbn iota.
  unfold lift at 1. erewrite bind_ok by reflexivity.
  erewrite bind_ok by reflexivity.
  unfold lift at 1. erewrite bind_ok by reflexivity.
  unfold lift at 1.
  erewrite (bind_ok _ _ _ false); cycle 1.
  { unfold py_lt_int. cbn [number_of float_lt]. rewrite Qle_bool_inject.
    destruct (Z.leb_spec 0 idx); [reflexivity | lia]. }
  erewrite (bind_ok _ _ _ false); cycle 1.
  { cbn iota. unfold lift at 1. erewrite bind_ok by reflexivity.
    unfold lift at 1. erewrite bind_ok by reflexivity.
    unfold lift at 1. erewrite bind_ok by reflexivity.
    unfold lift, py_ge_int. cbn [number_of float_ge]. rewrite Qle_bool_inject.
    destruct (Z.leb_spec (Z.of_nat (length sessions)) idx); [lia | reflexivity]. }
  cbn iota.
  unfold lift at 1. erewrite bind_ok by reflexivity.
  erewrite bind_ok by reflexivity.
  unfold lift at 1. erewrite bind_ok by reflexivity.
  unfold lift at 1. erewrite bind_ok by reflexivity.
  apply (load_sessions_settled cps w sessions (PStr viewer) (PInt idx) []).
  eapply Forall_impl; [exact Hs|]. intros raw Hraw.
  apply (settled_reconcile cps w w raw Hraw). auto.
Qed.

Lemma settled_mono cps w w1 session :
  (forall p, is_Some (file_at w p) -> is_Some (file_at w1 p)) ->
  settled_session cps w session -> settled_session cps w1 session.
Proof.
  intros Hm (name & cp & last & username & key & vnc & cd & srv & -> & Hcat & Hsrv
               & Hlast & Hpaths).
  exists name, cp, last, username, key, vnc, cd, srv.
  repeat (split; [assumption || reflexivity|]).
  destruct Hpaths as [H | [Hk Hv]]; [left; exact H | right].
  split; [auto|]. destruct Hv as [-> | Hv]; auto.
Qed.

(** X29: a user profile with a supported viewer, a selected session and
    settled sessions only (six strings each, a known catalog, a last server
    that is empty or listed, paths that are empty or exist), saved to a path
    that can be written and read and then loaded from it, is the profile
    that was saved. *)
Theorem user_save_load_roundtrip (path : string) (s : st UGUserProfile)
    (viewer : string) (idx : Z) (sessions : list pyval) :
  _profile (self s) = profile_with (PStr viewer) (PInt idx) sessions ->
  viewer = "TigerVNC" \/ viewer = "RealVNC" ->
  (0 <= idx < Z.of_nat (length sessions))%Z ->
  Forall (settled_session (_conn_profiles (self s)) (world s)) sessions ->
  path <> "" ->
  path ∉ no_write (world s) ->
  path ∉ no_read (world s) ->
  exists s1,
    save_profile path s = (Ok tt, s1) /\
    fst (load_profile path s1) = Ok tt /\
    self (snd (load_profile path s1)) = self s.
Proof.
  intros Hp Hviewer Hidx Hs Hne Hw Hr.
  destruct s as [[p cps] w]. cbn in Hp, Hs, Hw, Hr. subst p.
  assert (Hne' : String.eqb path "" = false)
    by (destruct (String.eqb_spec path ""); [contradiction | reflexivity]).
  set (p := profile_with (PStr viewer) (PInt idx) sessions) in *.
  set (w1 := with_files (<[path := Document (json_dumps p)]> (files w)) w).
  exists (St (mk p cps) w1). split.
  { unfold save_profile, try_except, bind, get_self, open_write. cbn.
    rewrite Hne', (bool_decide_eq_false_2 _ Hw). reflexivity. }
  assert (Hmono : forall q, is_Some (file_at w q) -> is_Some (file_at w1 q)).
  { intros q Hq. unfold file_at in *. unfold w1. cbn [files with_files].
    destruct (String.eqb q ""); [exact Hq|].
    destruct (decide (path = q)) as [->|Hd].
    - rewrite lookup_insert_eq. eauto.
    - rewrite lookup_insert_ne by exact Hd. exact Hq. }
  assert (Hread : read_file w1 path = Ok (Document (json_dumps p))).
  { unfold read_file. unfold w1 at 1. cbn [no_read with_files].
    rewrite (bool_decide_eq_false_2 _ Hr).
    unfold file_at. rewrite Hne'. unfold w1. cbn [files with_files].
    rewrite lookup_insert_eq. reflexivity. }
  rewrite load_profile_from_base_plain.
  rewrite (load_profile_try_settled path cps w1 viewer idx sessions Hread Hviewer Hidx).
  - split; reflexivity.
  - eapply Forall_impl; [exact Hs|]. intros raw. apply settled_mono. exact Hmono.
Qed.

End UserProfileMore.

Lemma user_save_load_roundtrip_witness :
  exists s1,
    UserProfile.save_profile "user_profile.json" (St two_session_profile key_on_disk)
      = (Ok tt, s1) /\
    self (snd (UserProfile.load_profile "user_profile.json" s1))
      = two_session_profile.
Proof.
  destruct (user_save_load_roundtrip "user_profile.json"
              (St two_session_profile key_on_disk) "TigerVNC" 1
              [PDict [("name", PStr "A");
                      ("conn_profile", PStr "catalogX");
                      ("last_server", PStr "");
                      ("username", PStr "");
                      ("private_key_path", PStr "");
                      ("vnc_passwd_path", PStr "")];
               PDict [("name", PStr "B");
                      ("conn_profile", PStr "catalogX");
                      ("last_server", PStr "host3");
                      ("username", PStr "bob");
                      ("private_key_path", PStr "id_rsa");
                      ("vnc_passwd_path", PStr "")]])
    as (s1 & H1 & _ & H3).
  - reflexivity.
  - left. reflexivity.
  - cbn. lia.
  - constructor; [|constructor; [|constructor]].
    + eexists "A", "catalogX", "", "", "", "", _, _.
      split; [reflexivity|]. split; [reflexivity|]. split; [reflexivity|].
      split; [left; reflexivity | left; split; reflexivity].
    + eexists "B", "catalogX", "host3", "bob", "id_rsa", "", _, _.
      split; [reflexivity|]. split; [reflexivity|]. split; [reflexivity|].
      split; [right; reflexivity|]. right.
      split; [eexists; reflexivity | left; reflexivity].
  - discriminate.
  - vm_compute. intros H. discriminate H.
  - vm_compute. intros H. discriminate H.
  - exists s1. split; [exact H1 | exact H3].
Defined.

Lemma add_new_session_unknown_catalog_witness :
  UserProfile.add_new_session "EECG1" "UG" (St fresh_user_profile quiet_world)
    = (Raise ValueError, St fresh_user_profile quiet_world).
Proof.
  apply (add_new_session_unknown_catalog "EECG1" "UG"
           (St fresh_user_profile quiet_world)).
  reflexivity.
Defined.

Lemma add_new_session_appends_witness :
  exists s',
    UserProfile.add_new_session "B" "catalogX" (St one_session_profile quiet_world)
      = (Ok tt, s') /\
    getitem (UserProfile._profile (self s')) "last_session" = Ok (PInt (-1)).
Proof.
  destruct (add_new_session_appends "B" "catalogX" (St one_session_profile quiet_world)
              [("version", PInt 1);
               ("viewer", PStr "TigerVNC");
               ("last_session", PInt (-1));
               ("sessions",
                PList [PDict [("name", PStr "A");
                              ("conn_profile", PStr "catalogX");
                              ("last_server", PStr "");
                              ("username", PStr "");
                              ("private_key_path", PStr "");
                              ("vnc_passwd_path", PStr "")]])]
              [PDict [("name", PStr "A");
                      ("conn_profile", PStr "catalogX");
                      ("last_server", PStr "");
                      ("username", PStr "");
                      ("private_key_path", PStr "");
                      ("vnc_passwd_path", PStr "")]])
    as (s' & H1 & _ & H3 & _).
  - reflexivity.
  - reflexivity.
  - eexists. vm_compute. reflexivity.
  - exists s'. split; [exact H1|].
    rewrite (H3 "last_session"); [reflexivity | discriminate].
Defined.

Lemma change_viewer_unsupported_witness :
  UserProfile.change_viewer "non-existing-viewer" (St fresh_user_profile quiet_world)
    = (Raise NotImplementedError, St fresh_user_profile quiet_world).
Proof.
  apply (change_viewer_unsupported "non-existing-viewer"
           (St fresh_user_profile quiet_world)); discriminate.
Defined.

Lemma change_viewer_supported_witness :
  exists s',
    UserProfile.change_viewer "RealVNC" (St fresh_user_profile quiet_world)
      = (Ok tt, s') /\
    getitem (UserProfile._profile (self s')) "viewer" = Ok (PStr "RealVNC").
Proof.
  destruct (change_viewer_supported "RealVNC" (St fresh_user_profile quiet_world)
              [("version", PInt 1); ("viewer", PStr "TigerVNC");
               ("last_session", PInt (-1)); ("sessions", PList [])])
    as (s' & H1 & H2 & _).
  - right. reflexivity.
  - reflexivity.
  - exists s'. split; [exact H1 | exact H2].
Defined.

Lemma modify_session_index_out_of_range_witness :
  UserProfile.modify_session 1 "liaojunh" "" None None
    (St one_session_profile quiet_world)
    = (Raise IndexError, St one_session_profile quiet_world).
Proof.
  apply (modify_session_index_out_of_range 1 "liaojunh" "" None None
           (St one_session_profile quiet_world)).
  right. eexists. split; [reflexivity|]. cbn. lia.
Defined.

Lemma modify_session_updates_selected_witness :
  UserProfile.modify_session 0 "alice" "host2" (Some "id_rsa") None
    (St one_session_profile quiet_world) =
  (Ok tt,
   St (UserProfile.mk
         (PDict [("version", PInt 1);
                 ("viewer", PStr "TigerVNC");
                 ("last_session", PInt 0);
                 ("sessions",
                  PList [PDict [("name", PStr "A");
                                ("conn_profile", PStr "catalogX");
                                ("last_server", PStr "host2");
                                ("username", PStr "alice");
                                ("private_key_path", PStr "id_rsa");
                                ("vnc_passwd_path", PStr "")]])])
         {["catalogX" := catalogX]})
      quiet_world).
Proof.
  apply (modify_session_updates_selected (St one_session_profile quiet_world)
           0 "alice" "host2" (Some "id_rsa") None
           [("version", PInt 1);
            ("viewer", PStr "TigerVNC");
            ("last_session", PInt (-1));
            ("sessions",
             PList [PDict [("name", PStr "A");
                           ("conn_profile", PStr "catalogX");
                           ("last_server", PStr "");
                           ("username", PStr "");
                           ("private_key_path", PStr "");
                           ("vnc_passwd_path", PStr "")]])]
           [PDict [("name", PStr "A");
                   ("conn_profile", PStr "catalogX");
                   ("last_server", PStr "");
                   ("username", PStr "");
                   ("private_key_path", PStr "");
                   ("vnc_passwd_path", PStr "")]]
           [("name", PStr "A");
            ("conn_profile", PStr "catalogX");
            ("last_server", PStr "");
            ("username", PStr "");
            ("private_key_path", PStr "");
            ("vnc_passwd_path", PStr "")]
           "catalogX" catalogX
           (PList [PStr "host1"; PStr "host2"; PStr "host3"]));
    first [reflexivity | lia].
Defined.


Lemma query_sessions_views_witness :
  exists views,
    UserProfile.query_sessions legacy_profile = Ok (PList views) /\
    Forall2 (session_view legacy_profile)
      [PDict [("name", PStr "A");
              ("conn_profile", PStr "old");
              ("last_server", PStr "host1");
              ("username", PStr "alice");
              ("private_key_path", PStr "id_rsa");
              ("vnc_passwd_path", PStr "")]]
      views.
Proof.
  destruct (query_sessions_views legacy_profile
              (PList [PDict [("name", PStr "A");
                             ("servers", PList [PStr "host1"]);
                             ("last_server", PStr "host1");
                             ("username", PStr "alice");
                             ("passwd", PBool true);
                             ("vnc_manual", PBool true);
                             ("vnc_passwd", PBool false)]]))
    as (sessions & todo & views & Hs & Hi & Hr & HF).
  - vm_compute. reflexivity.
  - exists views. split; [rewrite <- Hr; vm_compute; reflexivity|].
    vm_compute in Hs. injection Hs as <-. vm_compute in Hi. injection Hi as <-.
    exact HF.
Defined.

Lemma query_sessions_returns_witness :
  exists views,
    UserProfile.query_sessions legacy_profile = Ok (PList views) /\
    length views = 1%nat.
Proof.
  apply (query_sessions_returns legacy_profile
           [PDict [("name", PStr "A");
                   ("conn_profile", PStr "old");
                   ("last_server", PStr "host1");
                   ("username", PStr "alice");
                   ("private_key_path", PStr "id_rsa");
                   ("vnc_passwd_path", PStr "")]]).
  - reflexivity.
  - constructor; [|constructor].
    eexists _, "old", _. split; [reflexivity|].
    repeat split; try (eexists; reflexivity); reflexivity.
Defined.


(** ** Connection lifecycle *)

Section ConnectionMore.

Import Connection.

Variable remote : string -> string -> credential -> option exn.

Lemma same_endpoint_eq me h u :
  same_endpoint me h u = true -> hostname me = Some h /\ username me = Some u.
Proof.
  unfold same_endpoint. intros H. apply andb_prop in H as [Hh Hu].
  destruct (hostname me) as [h'|]; [|discriminate].
  destruct (username me) as [u'|]; [|discriminate].
  apply String.eqb_eq in Hh, Hu. subst. auto.
Qed.

Lemma connect_same_endpoint_reuse h u passwd key_filename (s : st UGConnection) :
  connected (self s) = true -> same_endpoint (self s) h u = true ->
  connect remote h u passwd key_filename s =
    (Ok tt,
     St (self s)
        (with_stdout
           (stdout (world s) ++
            [Say ("Connection already established on " +:+ u +:+ "@" +:+ h)])
           (world s))).
Proof.
  intros Ec Ee. destruct s as [me w]. cbn in *.
  unfold connect, bind, get_self. cbn. rewrite Ec, Ee. reflexivity.
Qed.

(** What [connect] does when it is not a reuse, in one equation. *)
Lemma connect_fresh h u passwd key_filename (s : st UGConnection) :
  connected (self s) && same_endpoint (self s) h u = false ->
  let w' :=
    if connected (self s)
    then with_stdout
           (stdout (world s) ++
            [Say "Hostname or credential mismatch. Disconnect that connection. "])
           (world s)
    else world s in
  connect remote h u passwd key_filename s =
  match chosen_credential passwd key_filename with
  | None =>
      (Raise ValueError,
       St (mk false None None (mkClient (calls (client (self s)) ++ [Close]))) w')
  | Some c =>
      match remote h u c with
      | Some e =>
          (Raise e,
           St (mk false None None
                 (mkClient ((calls (client (self s)) ++ [Close]) ++ [Connect h u c])))
              w')
      | None =>
          (Ok tt,
           St (mk true (Some h) (Some u)
                 (mkClient ((calls (client (self s)) ++ [Close]) ++ [Connect h u c])))
              w')
      end
  end.
Proof.
  intros H. destruct s as [[c ho us cl] w]. cbn in *.
  unfold connect, bind, get_self. cbn.
  destruct c; cbn in *.
  - rewrite H. cbn.
    destruct passwd as [p|]; [|destruct key_filename as [k|]]; cbn;
      try reflexivity;
      unfold client_connect, try_except, bind, get_self, put_self; cbn;
      destruct (remote h u _); reflexivity.
  - destruct passwd as [p|]; [|destruct key_filename as [k|]]; cbn;
      try reflexivity;
      unfold client_connect, try_except, bind, get_self, put_self; cbn;
      destruct (remote h u _); reflexivity.
Qed.

(** X19: the state [connect] leaves.  When it returns, the manager is
    connected to the endpoint it was asked for; when it raises, the manager
    is disconnected and holds no endpoint, whatever it held before. *)
Theorem connect_result_state (h u : string) (passwd key_filename : option string)
    (s : st UGConnection) :
  (fst (connect remote h u passwd key_filename s) = Ok tt ->
   connected_to (self (snd (connect remote h u passwd key_filename s))) h u) /\
  (forall e, fst (connect remote h u passwd key_filename s) = Raise e ->
   disconnected (self (snd (connect remote h u passwd key_filename s)))).
Proof.
  destruct (connected (self s) && same_endpoint (self s) h u) eqn:E.
  - apply andb_prop in E as [Ec Ee].
    pose proof (same_endpoint_eq _ _ _ Ee) as [Hh Hu].
    rewrite (connect_same_endpoint_reuse h u passwd key_filename s Ec Ee).
    cbn. split; [intros _; repeat split; assumption | discriminate].
  - pose proof (connect_fresh h u passwd key_filename s E) as F. cbn zeta in F.
    rewrite F.
    destruct (chosen_credential passwd key_filename) as [c|];
      [destruct (remote h u c)|]; cbn;
      (split; [try discriminate; intros _; repeat split | try discriminate;
               intros ? _; repeat split]).
Qed.

Lemma disconnect_eq (s : st UGConnection) :
  disconnect s =
  (Ok tt,
   St (mk false None None (mkClient (calls (client (self s)) ++ [Close])))
      (world s)).
Proof. destruct s as [[c ho us cl] w]. reflexivity. Qed.

(** X20: a connected manager knows its endpoint.  This holds of a new
    manager and of the manager every call of [connect] or [disconnect]
    leaves, whether the call returns or raises and whatever the manager held
    before. *)
Theorem endpoint_known_always (h u : string) (passwd key_filename : option string)
    (s : st UGConnection) :
  endpoint_known __init__ /\
  endpoint_known (self (snd (disconnect s))) /\
  endpoint_known (self (snd (connect remote h u passwd key_filename s))).
Proof.
  split; [intros H; discriminate H|].
  split; [rewrite disconnect_eq; intros H; discriminate H|].
  destruct (connected (self s) && same_endpoint (self s) h u) eqn:E.
  - apply andb_prop in E as [Ec Ee].
    pose proof (same_endpoint_eq _ _ _ Ee) as [Hh Hu].
    rewrite (connect_same_endpoint_reuse h u passwd key_filename s Ec Ee).
    cbn. intros _. rewrite Hh, Hu. split; eexists; reflexivity.
  - pose proof (connect_fresh h u passwd key_filename s E) as F. cbn zeta in F.
    rewrite F.
    destruct (chosen_credential passwd key_filename) as [c|];
      [destruct (remote h u c)|]; cbn; intros H; try discriminate H;
      split; eexists; reflexivity.
Qed.

(** X21: a [connect] that is not a reuse and has a credential asks the
    client for exactly a close and then one authentication, with the
    password when one is given and with the key file only when no password
    is; it returns if the remote side accepts and raises the remote side's
    own exception if not; and it prints the mismatch line exactly when the
    manager was connected. *)
Theorem connect_authenticates_once (h u : string)
    (passwd key_filename : option string) (c : credential) (s : st UGConnection) :
  connected (self s) && same_endpoint (self s) h u = false ->
  chosen_credential passwd key_filename = Some c ->
  fst (connect remote h u passwd key_filename s) =
    match remote h u c with
    | None => Ok tt
    | Some e => Raise e
    end /\
  calls (client (self (snd (connect remote h u passwd key_filename s)))) =
    calls (client (self s)) ++ [Close; Connect h u c] /\
  stdout (world (snd (connect remote h u passwd key_filename s))) =
    stdout (world s) ++
    (if connected (self s)
     then [Say "Hostname or credential mismatch. Disconnect that connection. "]
     else []).
Proof.
  intros E Hc. pose proof (connect_fresh h u passwd key_filename s E) as F.
  cbn zeta in F. rewrite F, Hc.
  destruct (remote h u c); cbn; (split; [reflexivity|]);
    (split; [rewrite <- app_assoc; reflexivity|]);
    destruct (connected (self s)); cbn; rewrite ?app_nil_r; reflexivity.
Qed.

(** X22: after [disconnect], [connect] is never a reuse: even for the
    endpoint the manager was connected to, the client is asked to
    authenticate again. *)
Theorem connect_after_disconnect_authenticates (h u : string)
    (passwd key_filename : option string) (c : credential) (s : st UGConnection) :
  chosen_credential passwd key_filename = Some c ->
  calls (client (self (snd (connect remote h u passwd key_filename
                              (snd (disconnect s)))))) =
    calls (client (self s)) ++ [Close; Close; Connect h u c].
Proof.
  intros Hc. rewrite disconnect_eq. cbn [snd].
  match goal with
  | |- context [connect remote h u passwd key_filename ?s1] =>
      pose proof (connect_fresh h u passwd key_filename s1 eq_refl) as F
  end.
  cbn zeta in F. rewrite F, Hc.
  destruct (remote h u c); cbn; rewrite <- !app_assoc; reflexivity.
Qed.

End ConnectionMore.

Lemma connect_result_state_witness :
  connected_to
    (self (snd (Connection.connect strict_server "h" "u" (Some "p1") None
                  (St Connection.__init__ quiet_world)))) "h" "u" /\
  disconnected
    (self (snd (Connection.connect strict_server "h" "u" (Some "1234") None
                  (St (Connection.mk true (Some "h2") (Some "u")
                         (Connection.mkClient [])) quiet_world)))).
Proof.
  split.
  - apply (proj1 (connect_result_state strict_server "h" "u" (Some "p1") None
                    (St Connection.__init__ quiet_world))).
    reflexivity.
  - apply (proj2 (connect_result_state strict_server "h" "u" (Some "1234") None
                    (St (Connection.mk true (Some "h2") (Some "u")
                           (Connection.mkClient [])) quiet_world))
             AuthenticationException).
    reflexivity.
Defined.

Lemma connect_authenticates_once_witness :
  fst (Connection.connect strict_server "h" "u" (Some "p1") (Some "id_rsa")
         (St (Connection.mk true (Some "h2") (Some "u") (Connection.mkClient []))
             quiet_world)) = Ok tt /\
  Connection.calls
    (Connection.client
       (self (snd (Connection.connect strict_server "h" "u" (Some "p1") (Some "id_rsa")
                     (St (Connection.mk true (Some "h2") (Some "u")
                            (Connection.mkClient [])) quiet_world))))) =
    [Connection.Close; Connection.Connect "h" "u" (Connection.Password "p1")].
Proof.
  destruct (connect_authenticates_once strict_server "h" "u" (Some "p1")
              (Some "id_rsa") (Connection.Password "p1")
              (St (Connection.mk true (Some "h2") (Some "u") (Connection.mkClient []))
                  quiet_world)) as (H1 & H2 & _).
  - reflexivity.
  - reflexivity.
  - split; [exact H1 | exact H2].
Defined.

Lemma connect_after_disconnect_authenticates_witness :
  Connection.calls
    (Connection.client
       (self (snd (Connection.connect strict_server "h" "u" None (Some "id_rsa")
                     (snd (Connection.disconnect
                             (St (Connection.mk true (Some "h") (Some "u")
                                    (Connection.mkClient [])) quiet_world))))))) =
    [Connection.Close; Connection.Close;
     Connection.Connect "h" "u" (Connection.KeyFile "id_rsa")].
Proof.
  apply (connect_after_disconnect_authenticates strict_server "h" "u" None
           (Some "id_rsa") (Connection.KeyFile "id_rsa")
           (St (Connection.mk true (Some "h") (Some "u") (Connection.mkClient []))
               quiet_world)).
  reflexivity.
Defined.

(** ** Construction of the user profile *)

Section ConstructionMore.

Import ConnProfile UserProfile Construction.

Variable os_listdir : World -> string -> outcome (list string).

Lemma endswith_append a suffix : endswith (a +:+ suffix) suffix = true.
Proof.
  induction a as [|c a IH].
  - change (endswith suffix suffix = true).
    destruct suffix as [|c t]; [reflexivity|].
    cbn [endswith]. rewrite String.eqb_refl. reflexivity.
  - change (String c a +:+ suffix) with (String c (a +:+ suffix)).
    cbn [endswith]. rewrite IH. apply orb_true_r.
Qed.

Lemma endswith_split s suffix :
  endswith s suffix = true -> exists a, s = a +:+ suffix.
Proof.
  induction s as [|c s IH]; cbn [endswith].
  - rewrite orb_false_r. intros H. apply String.eqb_eq in H. subst.
    exists "". reflexivity.
  - intros H. apply orb_prop in H as [H|H].
    + apply String.eqb_eq in H. exists "". exact H.
    + destruct (IH H) as [a ->]. exists (String c a). reflexivity.
Qed.

Lemma length_append a b : String.length (a +:+ b) = (String.length a + String.length b)%nat.
Proof. induction a as [|c a IH]; simpl; [reflexivity|]. rewrite IH. reflexivity. Qed.

Lemma substring_prefix a b : String.substring 0 (String.length a) (a +:+ b) = a.
Proof.
  induction a as [|c a IH]; simpl.
  - destruct b; reflexivity.
  - rewrite IH. reflexivity.
Qed.

Lemma drop_last_append a suffix : drop_last (String.length suffix) (a +:+ suffix) = a.
Proof.
  unfold drop_last. rewrite length_append.
  replace (String.length a + String.length suffix - String.length suffix)%nat
    with (String.length a) by lia.
  apply substring_prefix.
Qed.

Lemma append_json_inj a b : a +:+ ".json" = b +:+ ".json" -> a = b.
Proof.
  intros H. rewrite <- (drop_last_append a ".json"), <- (drop_last_append b ".json").
  rewrite H. reflexivity.
Qed.

Lemma load_conn_profile_eq path (s : st UGUserProfile_class) :
  exists out,
    load_conn_profile path s =
    (Ok (ConnProfile.mk (default _empty_profile (conn_accepts (world s) path))),
     St (self s) (with_stdout out (world s))).
Proof.
  unfold load_conn_profile.
  destruct (load_profile_eq path (St ConnProfile.__init__ (world s)))
    as (out & E & _).
  rewrite E. exists out. reflexivity.
Qed.

(** The loop of [__init__]: it returns, prints at most, and stores under each
    stem the catalog of the listed file of that stem. *)
Lemma scan_eq names : forall cps (s : st UGUserProfile_class),
  exists cps' out,
    scan names cps s = (Ok cps', St (self s) (with_stdout out (world s))) /\
    forall stem,
      cps' !! stem =
      if decide (stem +:+ ".json" ∈ names)
      then Some (catalog_of (world s) stem)
      else cps !! stem.
Proof.
  induction names as [|file_name names IH]; intros cps s.
  - exists cps, (stdout (world s)). split.
    + cbn. unfold ret. rewrite with_stdout_same. destruct s; reflexivity.
    + intros stem. rewrite decide_False by apply not_elem_of_nil. reflexivity.
  - cbn [scan]. destruct (endswith file_name ".json") eqn:E.
    + apply endswith_split in E as [a ->].
      change 5%nat with (String.length ".json"). rewrite drop_last_append.
      destruct (load_conn_profile_eq ("../profile/" +:+ a +:+ ".json") s)
        as (o1 & E1).
      unfold bind. rewrite E1.
      destruct (IH (<[a := catalog_of (world s) a]> cps)
                  (St (self s) (with_stdout o1 (world s))))
        as (cps' & o2 & E2 & Hl).
      exists cps', o2. split; [exact E2|].
      intros stem. rewrite Hl. cbn [world].
      change (catalog_of (with_stdout o1 (world s)) stem)
        with (catalog_of (world s) stem).
      destruct (decide (stem +:+ ".json" ∈ names)) as [Hin|Hout].
      * rewrite decide_True by (right; exact Hin). reflexivity.
      * destruct (decide (a = stem)) as [->|Hne].
        -- rewrite decide_True by left. apply lookup_insert_eq.
        -- rewrite decide_False.
           ++ apply lookup_insert_ne. exact Hne.
           ++ intros Hin. apply elem_of_cons in Hin as [Heq|Hin];
                [|contradiction].
              apply Hne. symmetry. apply append_json_inj. exact Heq.
    + destruct (IH cps s) as (cps' & o & E2 & Hl).
      exists cps', o. split; [exact E2|].
      intros stem. rewrite Hl.
      destruct (decide (stem +:+ ".json" ∈ names)) as [Hin|Hout].
      * rewrite decide_True by (right; exact Hin). reflexivity.
      * rewrite decide_False; [reflexivity|].
        intros Hin. apply elem_of_cons in Hin as [Heq|Hin]; [|contradiction].
        rewrite <- Heq, endswith_append in E. discriminate E.
Qed.

(** X23: constructing a second [UGUserProfile] raises [ValueError] before
    anything else happens: the directory is not listed, no file is read and
    nothing is printed. *)
Theorem construct_twice_raises (s : st UGUserProfile_class) :
  instantiated (self s) = true ->
  construct os_listdir s = (Raise ValueError, s).
Proof.
  intros H. unfold construct, __new__, bind, get_self, raise. cbn.
  rewrite H. reflexivity.
Qed.

(** X24: when the profile directory cannot be listed, the first construction
    raises the exception of [os.listdir] and leaves [instantiated] false, so
    that a later construction is not refused. *)
Theorem construct_without_directory (s : st UGUserProfile_class) (e : exn) :
  instantiated (self s) = false ->
  os_listdir (world s) "../profile" = Raise e ->
  construct os_listdir s = (Raise e, s).
Proof.
  intros H He. unfold construct, __new__, __init__, bind, get_self, ret. cbn.
  rewrite H, He. reflexivity.
Qed.

(** X25: the first construction, when the directory can be listed, returns
    an instance with the default profile and sets [instantiated].  Its
    catalogs are keyed by file stem: there is one for each listed name that
    ends in [.json] and none for any other name, and each is the document of
    its file when that is accepted and the default connection profile
    otherwise.  No file is changed. *)
Theorem construct_scans_directory (s : st UGUserProfile_class) (names : list string) :
  instantiated (self s) = false ->
  os_listdir (world s) "../profile" = Ok names ->
  exists me s',
    construct os_listdir s = (Ok me, s') /\
    instantiated (self s') = true /\
    files (world s') = files (world s) /\
    _profile me = _empty_user_profile /\
    forall stem c,
      _conn_profiles me !! stem = Some c <->
      stem +:+ ".json" ∈ names /\ c = catalog_of (world s) stem.
Proof.
  intros H Hn. destruct (scan_eq names ∅ s) as (cps & out & E & Hl).
  exists (UserProfile.mk _empty_user_profile cps),
         (St (mkClass true) (with_stdout out (world s))).
  split.
  - unfold construct, __new__, __init__, bind, get_self, ret, put_self. cbn.
    rewrite H, Hn, E. reflexivity.
  - split; [reflexivity|]. split; [reflexivity|]. split; [reflexivity|].
    intros stem c. cbn [_conn_profiles]. rewrite Hl.
    destruct (decide (stem +:+ ".json" ∈ names)) as [Hin|Hout].
    + split; [intros [= <-]; auto | intros [_ ->]; reflexivity].
    + rewrite lookup_empty. split; [discriminate | intros [? _]; contradiction].
Qed.

End ConstructionMore.

Lemma construct_twice_raises_witness :
  Construction.construct list_profile_directory
    (St (Construction.mkClass true) profile_directory)
  = (Raise ValueError, St (Construction.mkClass true) profile_directory).
Proof.
  apply (construct_twice_raises list_profile_directory
           (St (Construction.mkClass true) profile_directory)).
  reflexivity.
Defined.

Lemma construct_without_directory_witness :
  Construction.construct no_directory
    (St (Construction.mkClass false) quiet_world)
  = (Raise OSError, St (Construction.mkClass false) quiet_world).
Proof.
  apply (construct_without_directory no_directory
           (St (Construction.mkClass false) quiet_world) OSError);
    reflexivity.
Defined.

Lemma construct_scans_directory_witness :
  exists me s',
    Construction.construct list_profile_directory
      (St (Construction.mkClass false) profile_directory) = (Ok me, s') /\
    UserProfile._conn_profiles me !! "eecg"
      = Some (ConnProfile.mk (json_load eecg_document)) /\
    UserProfile._conn_profiles me !! "new" = Some ConnProfile.__init__ /\
    UserProfile._conn_profiles me !! "id_rsa" = None.
Proof.
  destruct (construct_scans_directory list_profile_directory
              (St (Construction.mkClass false) profile_directory)
              ["id_rsa"; "eecg.json"; "new.json"])
    as (me & s' & E & _ & _ & _ & Hc).
  - reflexivity.
  - reflexivity.
  - exists me, s'. split; [exact E|]. split; [|split].
    + apply Hc. split; [|reflexivity].
      apply (bool_decide_unpack _). vm_compute. exact I.
    + apply Hc. split; [|reflexivity].
      apply (bool_decide_unpack _). vm_compute. exact I.
    + destruct (UserProfile._conn_profiles me !! "id_rsa") as [c|] eqn:El;
        [|reflexivity].
      apply Hc in El as [Hin _]. exfalso. revert Hin.
      apply (bool_decide_unpack _). vm_compute. exact I.
Defined.

(** ** Remote commands and keys *)

Section KeysMore.

Import Connection Keys.

Variable generated_key : string.
Variable os_username os_hostname : string.
Variable remote_run : string -> outcome Z.

(** X26: [save_keys] on a manager that is not connected raises
    [PermissionError] at once: no key file is written and no command is
    sent. *)
Theorem save_keys_requires_connection (key_filename : string) (s : st Manager) :
  connected (conn (self s)) = false ->
  save_keys generated_key os_username os_hostname remote_run key_filename s
    = (Failed PermissionError, s).
Proof.
  intros H. unfold save_keys. rewrite H. reflexivity.
Qed.

(** X27: [save_keys] on a connected manager, when the key file cannot be
    written, raises the exception of the write and sends no command: a key
    that is not stored locally is never installed on the remote side. *)
Theorem save_keys_unwritable_key (key_filename : string) (s : st Manager) :
  connected (conn (self s)) = true ->
  key_filename = "" \/ key_filename ∈ no_write (world s) ->
  save_keys generated_key os_username os_hostname remote_run key_filename s
    = (Failed (Raised OSError), s).
Proof.
  intros Hc Hw. unfold save_keys. rewrite Hc. cbn [negb].
  unfold kbind, ssh_keygen, kbind, write_private_key_file, open_write.
  destruct Hw as [-> | Hw].
  - reflexivity.
  - rewrite (bool_decide_eq_true_2 _ Hw), orb_true_r. reflexivity.
Qed.

(** X28: [save_keys] on a connected manager with a writable key path writes
    the key file and then sends exactly one command, the one that appends
    the public key line (key type, key material, local user and host) to the
    authorized keys.  When the command ends with status [0] the call
    returns; when it ends with another status the call raises [SystemError]
    with that status, and the key file stays written; when the client raises
    for the command, so does the call.  The connection itself is not
    touched. *)
Theorem save_keys_writes_then_installs (key_filename : string) (s : st Manager) :
  connected (conn (self s)) = true ->
  key_filename <> "" ->
  key_filename ∉ no_write (world s) ->
  let command :=
    install_command (public_key_line generated_key os_username os_hostname) in
  let s' :=
    St (mkManager (conn (self s)) (sent (self s) ++ [command]))
       (with_files (<[key_filename := NotJson]> (files (world s))) (world s)) in
  file_at (world s') key_filename = Some NotJson /\
  save_keys generated_key os_username os_hostname remote_run key_filename s =
    (match remote_run command with
     | Ok status =>
         if (status =? 0)%Z then Done tt else Failed (SystemError status)
     | Raise e => Failed (Raised e)
     end, s').
Proof.
  intros Hc Hne Hw command s'.
  assert (Hne' : String.eqb key_filename "" = false)
    by (destruct (String.eqb_spec key_filename ""); [contradiction | reflexivity]).
  split.
  - unfold file_at. rewrite Hne'. cbn. apply lookup_insert_eq.
  - unfold save_keys. rewrite Hc. cbn [negb].
    unfold kbind, ssh_keygen, kbind, write_private_key_file, open_write.
    rewrite Hne', (bool_decide_eq_false_2 _ Hw). cbn [orb kret].
    unfold exec_command_blocking, kbind, client_exec_command. cbn [self world conn sent].
    fold (public_key_line generated_key os_username os_hostname). fold command.
    destruct (remote_run command) as [status|e]; cbn [kret fst recv_exit_status].
    + destruct (status =? 0)%Z; reflexivity.
    + reflexivity.
Qed.

End KeysMore.

Lemma save_keys_requires_connection_witness :
  Keys.save_keys "AAAA" "me" "laptop" remote_accepts "id_rsa"
    (St (Keys.mkManager Connection.__init__ []) quiet_world)
  = (Keys.Failed Keys.PermissionError,
     St (Keys.mkManager Connection.__init__ []) quiet_world).
Proof.
  apply (save_keys_requires_connection "AAAA" "me" "laptop" remote_accepts "id_rsa"
           (St (Keys.mkManager Connection.__init__ []) quiet_world)).
  reflexivity.
Defined.

Lemma save_keys_unwritable_key_witness :
  Keys.save_keys "AAAA" "me" "laptop" remote_accepts "locked.json"
    (St connected_manager locked_world)
  = (Keys.Failed (Keys.Raised OSError), St connected_manager locked_world).
Proof.
  apply (save_keys_unwritable_key "AAAA" "me" "laptop" remote_accepts "locked.json"
           (St connected_manager locked_world)).
  - reflexivity.
  - right. vm_compute. reflexivity.
Defined.

Lemma save_keys_writes_then_installs_witness :
  fst (Keys.save_keys "AAAA" "me" "laptop" remote_refuses "id_rsa"
         (St connected_manager quiet_world))
    = Keys.Failed (Keys.SystemError 1) /\
  file_at
    (world (snd (Keys.save_keys "AAAA" "me" "laptop" remote_refuses "id_rsa"
                   (St connected_manager quiet_world)))) "id_rsa"
    = Some NotJson /\
  Keys.sent
    (self (snd (Keys.save_keys "AAAA" "me" "laptop" remote_refuses "id_rsa"
                  (St connected_manager quiet_world))))
    = ["mkdir -p ~/.ssh && chmod 700 ~/.ssh && echo 'ssh-rsa AAAA me@laptop' >>  ~/.ssh/authorized_keys"].
Proof.
  destruct (save_keys_writes_then_installs "AAAA" "me" "laptop" remote_refuses
              "id_rsa" (St connected_manager quiet_world)) as [H1 H2].
  - reflexivity.
  - discriminate.
  - vm_compute. intros H. discriminate H.
  - rewrite H2. split; [reflexivity|]. split; [exact H1 | reflexivity].
Defined.
